(** * CoreStitchAuth: the authentication session manager of the Stitch SDK

    A shallow embedding of [CoreStitchAuth] (the core class holding the
    authentication state of a Stitch client) and of [UserApiKeyCredential].

    The class is written with promises.  A promise is embedded as a finite
    tree: it is settled, or it waits for the transport's answer to one
    request and continues from the state the object has when the answer
    arrives.  The mutable fields of the object are a record that every
    function threads explicitly. *)

From Stdlib Require Import String List Bool ZArith Lia.
Import ListNotations.
Local Open Scope string_scope.

Set Implicit Arguments.
Set Warnings "-register-all".

(** ** Errors *)

Inductive StitchClientErrorCode : Type :=
| LoggedOutDuringRequest
| MustAuthenticateFirst
| UserNoLongerValid
| CouldNotLoadPersistedAuthInfo
| CouldNotPersistAuthInfo.

Inductive StitchRequestErrorCode : Type :=
| TRANSPORT_ERROR
| DECODING_ERROR.

Inductive StitchServiceErrorCode : Type :=
| InvalidSession
| Unknown
| OtherServiceError (code : string).

(** What a promise is rejected with (or a function throws).  The first three
    are the subclasses of [StitchError]; [JsError] is any other exception,
    such as the [SyntaxError] of [JSON.parse]. *)
Inductive Error : Type :=
| StitchClientError (code : StitchClientErrorCode)
| StitchRequestError (cause : Error) (code : StitchRequestErrorCode)
| StitchServiceError (errorCode : StitchServiceErrorCode)
| JsError (message : string).

(** [err instanceof StitchError] *)
Definition isStitchError (e : Error) : bool :=
  match e with
  | JsError _ => false
  | _ => true
  end.

(** [ex instanceof StitchServiceError && ex.errorCode === InvalidSession] *)
Definition isInvalidSession (e : Error) : bool :=
  match e with
  | StitchServiceError InvalidSession => true
  | _ => false
  end.

Inductive Result (A : Type) : Type :=
| Ok (a : A)
| Err (e : Error).
Arguments Err {A} e.

(** ** Documents, requests and responses *)

Inductive Json : Type :=
| JString (s : string)
| JObject (fields : list (string * Json)).

Inductive Method : Type := GET | POST | DELETE.

Definition OPTIONS : string := "options".
Definition DEVICE : string := "device".

(** [obj[key] = value] on an object used as a dictionary. *)
Fixpoint setKey {V : Type} (key : string) (value : V) (obj : list (string * V))
  : list (string * V) :=
  match obj with
  | [] => [(key, value)]
  | (k, v) :: rest =>
      if String.eqb k key then (k, value) :: rest
      else (k, v) :: setKey key value rest
  end.

Fixpoint getKey {V : Type} (key : string) (obj : list (string * V)) : option V :=
  match obj with
  | [] => None
  | (k, v) :: rest => if String.eqb k key then Some v else getKey key rest
  end.

Record StitchRequest : Type := {
  method : Method;
  path : string;
  headers : list (string * string);
  document : option (list (string * Json));
  startedAt : Z
}.

(** A [StitchAuthRequest] is a request with the two authentication flags. *)
Record StitchAuthRequest : Type := {
  request : StitchRequest;
  useRefreshToken : bool;
  shouldRefreshOnFailure : bool
}.

Record Response : Type := {
  statusCode : Z;
  body : option string
}.

(** [req.builder.withShouldRefreshOnFailure(b).build()] *)
Definition withShouldRefreshOnFailure (b : bool) (req : StitchAuthRequest)
  : StitchAuthRequest :=
  {| request := request req;
     useRefreshToken := useRefreshToken req;
     shouldRefreshOnFailure := b |}.

Definition withHeaders (h : list (string * string)) (r : StitchRequest)
  : StitchRequest :=
  {| method := method r; path := path r; headers := h;
     document := document r; startedAt := startedAt r |}.

(** Modelled from the spec: the [Headers] module is not in the sources.  The
    bearer token is attached "to the request's authorization header"; an
    undefined token prints as JavaScript prints it. *)
Definition AUTHORIZATION : string := "Authorization".

Definition getAuthorizationBearer (token : option string) : string :=
  "Bearer " ++ match token with Some t => t | None => "undefined" end.

(** ** Promises *)

Section Promises.

Variable St : Type.

(** A promise over the mutable state [St]: settled, or pending on the
    answer to a dispatched request.  The continuation is every callback
    chained on the promise; it runs on the state the object has when the
    answer is delivered. *)
Inductive Promise (A : Type) : Type :=
| Settled (r : Result A)
| Pending (req : StitchRequest)
          (k : Result Response -> St -> St * Promise A).

(** An asynchronous method: its synchronous part transforms the state and
    returns a promise.  A synchronous [throw] is embedded as a promise that
    is already rejected. *)
Definition Async (A : Type) : Type := St -> St * Promise A.

Definition resolve {A : Type} (a : A) : Async A :=
  fun s => (s, Settled (Ok a)).

Definition reject {A : Type} (e : Error) : Async A :=
  fun s => (s, Settled (Err e)).

(** [p.then(onOk, onErr)] in one combinator: [k] receives the settlement. *)
Fixpoint chainP {A B : Type} (p : Promise A) (k : Result A -> Async B)
  : Async B :=
  match p with
  | Settled r => k r
  | Pending req c =>
      fun s => (s, Pending req (fun resp s' =>
                      let (s'', p') := c resp s' in chainP p' k s''))
  end.

Definition chain {A B : Type} (m : Async A) (k : Result A -> Async B)
  : Async B :=
  fun s => let (s1, p) := m s in chainP p k s1.

(** [m.then(f)] *)
Definition andThen {A B : Type} (m : Async A) (f : A -> Async B) : Async B :=
  chain m (fun r => match r with Ok a => f a | Err e => reject e end).

(** [m.catch(h)] *)
Definition orCatch {A : Type} (m : Async A) (h : Error -> Async A) : Async A :=
  chain m (fun r => match r with Ok a => resolve a | Err e => h e end).

(** The transport answers the pending request of [p] with [r]. *)
Definition deliver {A : Type} (p : Promise A) (r : Result Response)
  : Async A :=
  match p with
  | Settled _ => fun s => (s, p)
  | Pending _ k => k r
  end.

(** One chain of calls run alone: the transport answers the requests in
    order from the script [net], until the promise settles or the script
    ends.  The result is the final state, the promise, and the answers that
    were not used. *)
Fixpoint run {A : Type} (p : Promise A) (net : list (Result Response))
  (s : St) : St * Promise A * list (Result Response) :=
  match p with
  | Settled _ => (s, p, net)
  | Pending _ k =>
      match net with
      | [] => (s, p, [])
      | r :: net' => let (s', p') := k r s in run p' net' s'
      end
  end.

(** An asynchronous method called and then run alone. *)
Definition runA {A : Type} (m : Async A) (net : list (Result Response))
  (s : St) : St * Promise A * list (Result Response) :=
  let (s1, p) := m s in run p net s1.

(** The requests dispatched during that run, in order. *)
Fixpoint dispatched {A : Type} (p : Promise A) (net : list (Result Response))
  (s : St) : list StitchRequest :=
  match p with
  | Settled _ => []
  | Pending req k =>
      req :: match net with
             | [] => []
             | r :: net' => let (s', p') := k r s in dispatched p' net' s'
             end
  end.

(** [settlesWithin n p]: whatever the transport answers and whatever the
    state is when it answers, [p] settles after at most [n] requests. *)
Inductive settlesWithin {A : Type} : nat -> Promise A -> Prop :=
| settles_now : forall n r, settlesWithin n (Settled r)
| settles_later : forall n req k,
    (forall r s, settlesWithin n (snd (k r s))) ->
    settlesWithin (S n) (Pending req k).

End Promises.

Arguments Settled {St A} r.
Arguments Pending {St A} req k.
Arguments settles_now {St A} n r.

(** ** Authentication info *)

(** Modelled from the spec: the opaque profile payload ([StitchUserProfileImpl]
    is not in the sources), kept as the decoded profile document. *)
Definition StitchUserProfileImpl : Type := list (string * Json).

(** The fields are those of the constructor calls in [processLogin]. *)
Record AuthInfo : Type := {
  userId : option string;
  deviceId : option string;
  accessToken : option string;
  refreshToken : option string;
  loggedInProviderType : option string;
  loggedInProviderName : option string;
  userProfile : option StitchUserProfileImpl
}.

Module AuthInfoOps.

(** Modelled from the spec: [AuthInfo.empty()], "created empty at
    construction (no stored state)". *)
Definition empty : AuthInfo :=
  {| userId := None; deviceId := None; accessToken := None;
     refreshToken := None; loggedInProviderType := None;
     loggedInProviderName := None; userProfile := None |}.

(** Modelled from the spec: [AuthInfo.loggedOut()], "the logged out variant
    clears all identity and token fields while optionally preserving device
    id". *)
Definition loggedOut (a : AuthInfo) : AuthInfo :=
  {| userId := None; deviceId := deviceId a; accessToken := None;
     refreshToken := None; loggedInProviderType := None;
     loggedInProviderName := None; userProfile := None |}.

Definition orElse {A : Type} (new old : option A) : option A :=
  match new with
  | Some _ => new
  | None => old
  end.

(** Modelled from the spec: [AuthInfo.merge(newInfo)], "merge the returned
    partial auth info into current state": a field the partial info
    defines replaces the current one, the others are kept. *)
Definition merge (a newInfo : AuthInfo) : AuthInfo :=
  {| userId := orElse (userId newInfo) (userId a);
     deviceId := orElse (deviceId newInfo) (deviceId a);
     accessToken := orElse (accessToken newInfo) (accessToken a);
     refreshToken := orElse (refreshToken newInfo) (refreshToken a);
     loggedInProviderType :=
       orElse (loggedInProviderType newInfo) (loggedInProviderType a);
     loggedInProviderName :=
       orElse (loggedInProviderName newInfo) (loggedInProviderName a);
     userProfile := orElse (userProfile newInfo) (userProfile a) |}.

End AuthInfoOps.
Import AuthInfoOps.

(** ** Credentials *)

Record ProviderCapabilities : Type := {
  reusesExistingSession : bool
}.

(** [StitchAuthResponseCredential] carries the auth info the server issued. *)
Record StitchAuthResponse : Type := {
  responseAuthInfo : AuthInfo;
  asLink : bool
}.

(** A [StitchCredential]; [authResponse] is defined exactly for an instance
    of [StitchAuthResponseCredential]. *)
Record StitchCredential : Type := {
  providerName : string;
  providerType : string;
  material : list (string * Json);
  providerCapabilities : ProviderCapabilities;
  authResponse : option StitchAuthResponse
}.

Module UserApiKeyAuthProvider.
(** Modelled from the spec: the provider's constants are not in the
    sources; any two strings would do. *)
Definition TYPE : string := "api-key".
Definition DEFAULT_NAME : string := "api-key".
End UserApiKeyAuthProvider.

(** [new UserApiKeyCredential(key, providerName)] *)
Definition UserApiKeyCredential (key : string) (name : string) : StitchCredential :=
  {| providerName := name;
     providerType := UserApiKeyAuthProvider.TYPE;
     material := [("key", JString key)];
     providerCapabilities := {| reusesExistingSession := false |};
     authResponse := None |}.

(** ** The collaborators of the class *)

Record StitchAuthRoutes : Type := {
  sessionRoute : string;
  profileRoute : string;
  getAuthProviderLoginRoute : string -> string;
  getAuthProviderLinkRoute : string -> string
}.

Record JWT : Type := {
  expires : Z;
  issuedAt : Z
}.

(** What the class is given and does not define: the storage, the user
    factory of the subclass, the routes, the decoders, the clock.  A function
    of JavaScript that can throw returns a [Result]; an argument written
    [x!] in the source is passed as it is at run time, defined or not. *)
Record Host : Type := {
  Storage : Type;
  (** [readFromStorage(storage)] *)
  readFromStorage : Storage -> Result (option AuthInfo);
  (** [writeToStorage(info, storage)]: the storage afterwards, and whether
      the write succeeded ([false]: it threw). *)
  writeToStorage : AuthInfo -> Storage -> Storage * bool;
  TStitchUser : Type;
  (** [userFactory.makeUser(id, providerType, providerName, profile)] *)
  makeUser : option string -> option string -> option string ->
             option StitchUserProfileImpl -> TStitchUser;
  (** [user.id] and [user.loggedInProviderType] of [CoreStitchUser] *)
  id : TStitchUser -> option string;
  userLoggedInProviderType : TStitchUser -> option string;
  authRoutes : StitchAuthRoutes;
  deviceInfo : list (string * Json);
  (** [JWT.fromEncoded(token)]; [None]: it threw. *)
  JWT_fromEncoded : option string -> option JWT;
  (** [ApiAuthInfo.fromJSON(JSON.parse(body))] *)
  ApiAuthInfo_fromJSON : option string -> Result AuthInfo;
  (** [ApiCoreUserProfile.fromJSON(JSON.parse(body))] *)
  ApiCoreUserProfile_fromJSON : option string -> Result StitchUserProfileImpl;
  (** The value a request builder gives [shouldRefreshOnFailure] when
      [withShouldRefreshOnFailure] was not called. *)
  builderShouldRefreshOnFailure : bool
}.

(** ** The state of a [CoreStitchAuth] and its operations *)

Section CoreStitchAuth.

Variable H : Host.

(** What the owner and the storage observe, in order: the ghost record of
    the calls to [writeToStorage] and to [onAuthEvent]. *)
Inductive Event : Type :=
| Persisted (info : AuthInfo)
| PersistFailed (info : AuthInfo)
| AuthEvent.

(** The mutable fields of the object ([authInfo], [currentUser]), the
    storage it writes to, the clock that request builders read, and the
    ghost log. *)
Record CoreStitchAuth : Type := {
  authInfo : AuthInfo;
  currentUser : option (TStitchUser H);
  storage : Storage H;
  clock : Z;
  log : list Event
}.

Definition setAuthInfo (a : AuthInfo) (s : CoreStitchAuth) : CoreStitchAuth :=
  {| authInfo := a; currentUser := currentUser s; storage := storage s;
     clock := clock s; log := log s |}.

Definition setCurrentUser (u : option (TStitchUser H)) (s : CoreStitchAuth)
  : CoreStitchAuth :=
  {| authInfo := authInfo s; currentUser := u; storage := storage s;
     clock := clock s; log := log s |}.

Definition setStorage (st : Storage H) (s : CoreStitchAuth) : CoreStitchAuth :=
  {| authInfo := authInfo s; currentUser := currentUser s; storage := st;
     clock := clock s; log := log s |}.

Definition record (e : Event) (s : CoreStitchAuth) : CoreStitchAuth :=
  {| authInfo := authInfo s; currentUser := currentUser s;
     storage := storage s; clock := clock s; log := log s ++ [e] |}.

(** [onAuthEvent()], the hook of the subclass. *)
Definition onAuthEvent (s : CoreStitchAuth) : CoreStitchAuth :=
  record AuthEvent s.

(** [try { writeToStorage(info, this.storage) } catch { ... }]: the state
    after the call and whether it returned. *)
Definition tryWriteToStorage (info : AuthInfo) (s : CoreStitchAuth)
  : CoreStitchAuth * bool :=
  let (st, ok) := writeToStorage H info (storage s) in
  if ok then (record (Persisted info) (setStorage st s), true)
  else (record (PersistFailed info) (setStorage st s), false).

(** [get isLoggedIn] *)
Definition isLoggedIn (s : CoreStitchAuth) : bool :=
  match currentUser s with
  | Some _ => true
  | None => false
  end.

(** [get user] *)
Definition user (s : CoreStitchAuth) : option (TStitchUser H) := currentUser s.

(** [get hasDeviceId] *)
Definition hasDeviceId (s : CoreStitchAuth) : bool :=
  match deviceId (authInfo s) with
  | None => false
  | Some d =>
      negb (String.eqb d "") &&
      negb (String.eqb d "000000000000000000000000")
  end.

(** [get deviceId] *)
Definition getDeviceId (s : CoreStitchAuth) : option string :=
  if negb (hasDeviceId s) then None else deviceId (authInfo s).

(** [prepUser()] *)
Definition prepUser (s : CoreStitchAuth) : CoreStitchAuth :=
  match userId (authInfo s) with
  | Some _ =>
      setCurrentUser
        (Some (makeUser H (userId (authInfo s))
                 (loggedInProviderType (authInfo s))
                 (loggedInProviderName (authInfo s))
                 (userProfile (authInfo s)))) s
  | None => s
  end.

(** The constructor, without the background refresher. *)
Definition construct (st : Storage H) (now : Z) : Result CoreStitchAuth :=
  match readFromStorage H st with
  | Err _ => Err (StitchClientError CouldNotLoadPersistedAuthInfo)
  | Ok info =>
      Ok (prepUser
            {| authInfo := match info with
                           | None => empty
                           | Some i => i
                           end;
               currentUser := None; storage := st; clock := now;
               log := [] |})
  end.

(** [clearAuth()]: a synchronous method; [Err] is what it throws. *)
Definition clearAuth (s : CoreStitchAuth) : CoreStitchAuth * Result unit :=
  if negb (isLoggedIn s) then (s, Ok tt)
  else
    let s1 := setAuthInfo (loggedOut (authInfo s)) s in
    let (s2, ok) := tryWriteToStorage (authInfo s1) s1 in
    if ok then (onAuthEvent (setCurrentUser None s2), Ok tt)
    else (s2, Err (StitchClientError CouldNotPersistAuthInfo)).

(** A synchronous method called where a promise is expected (the body of a
    [then] or [catch] callback). *)
Definition sync {A : Type} (m : CoreStitchAuth -> CoreStitchAuth * Result A)
  : Async CoreStitchAuth A :=
  fun s => let (s', r) := m s in (s', Settled r).

(** [prepareAuthRequest(stitchReq)] *)
Definition prepareAuthRequest (stitchReq : StitchAuthRequest)
  (s : CoreStitchAuth) : Result StitchRequest :=
  if negb (isLoggedIn s) then Err (StitchClientError MustAuthenticateFirst)
  else
    let newHeaders := headers (request stitchReq) in
    let token := if useRefreshToken stitchReq
                 then refreshToken (authInfo s)
                 else accessToken (authInfo s) in
    Ok (withHeaders
          (setKey AUTHORIZATION (getAuthorizationBearer token) newHeaders)
          (request stitchReq)).

(** The request that [prepareAuthRequest] builds when logged in. *)
Definition authorized (stitchReq : StitchAuthRequest) (s : CoreStitchAuth)
  : StitchRequest :=
  withHeaders
    (setKey AUTHORIZATION
       (getAuthorizationBearer
          (if useRefreshToken stitchReq
           then refreshToken (authInfo s)
           else accessToken (authInfo s)))
       (headers (request stitchReq)))
    (request stitchReq).

(** [requestClient.doRequest(req)]: the request is dispatched and the
    promise settles as the transport answers. *)
Definition doRequest (req : StitchRequest) : Async CoreStitchAuth Response :=
  fun s => (s, Pending req (fun r s' => (s', Settled r))).

(** [new StitchAuthRequest.Builder().withPath(p).withMethod(m).build()] *)
Definition newAuthRequest (m : Method) (p : string) (refresh : bool)
  (s : CoreStitchAuth) : StitchAuthRequest :=
  {| request := {| method := m; path := p; headers := [];
                   document := None; startedAt := clock s |};
     useRefreshToken := refresh;
     shouldRefreshOnFailure := builderShouldRefreshOnFailure H |}.

(** *** The authenticated request and its failure handling

    [doAuthenticatedRequest], [handleAuthFailure], [tryRefreshAccessToken]
    and [refreshAccessToken] call one another.  Each is first written over
    the recursive call [self], as in the source; the knot is tied below. *)
Section Knot.

Variable self : StitchAuthRequest -> Async CoreStitchAuth Response.

(** [refreshAccessToken()] *)
Definition refreshAccessToken_ : Async CoreStitchAuth unit :=
  fun s =>
    andThen (self (newAuthRequest POST (sessionRoute (authRoutes H)) true s))
      (fun response s' =>
         match ApiAuthInfo_fromJSON H (body response) with
         | Err err =>
             reject (StitchRequestError err DECODING_ERROR) s'
         | Ok partialInfo =>
             let s1 := setAuthInfo (merge (authInfo s') partialInfo) s' in
             let (s2, ok) := tryWriteToStorage (authInfo s1) s1 in
             if ok then resolve tt s2
             else reject (StitchClientError CouldNotPersistAuthInfo) s2
         end) s.

(** [tryRefreshAccessToken(reqStartedAt)] *)
Definition tryRefreshAccessToken_ (reqStartedAt : Z)
  : Async CoreStitchAuth unit :=
  fun s =>
    if negb (isLoggedIn s)
    then reject (StitchClientError LoggedOutDuringRequest) s
    else
      match JWT_fromEncoded H (accessToken (authInfo s)) with
      | Some jwt =>
          if (issuedAt jwt >=? reqStartedAt)%Z then resolve tt s
          else refreshAccessToken_ s
      | None => refreshAccessToken_ s
      end.

(** [handleAuthFailure(ex, req)] *)
Definition handleAuthFailure_ (ex : Error) (req : StitchAuthRequest)
  : Async CoreStitchAuth Response :=
  fun s =>
    if negb (isInvalidSession ex) then reject ex s
    else if useRefreshToken req || negb (shouldRefreshOnFailure req) then
      let (s', r) := clearAuth s in
      match r with
      | Ok _ => reject ex s'
      | Err e => reject e s'
      end
    else
      andThen (tryRefreshAccessToken_ (startedAt (request req)))
        (fun _ => self (withShouldRefreshOnFailure false req)) s.

(** [doAuthenticatedRequest(stitchReq)] *)
Definition doAuthenticatedRequest_ (stitchReq : StitchAuthRequest)
  : Async CoreStitchAuth Response :=
  fun s =>
    match prepareAuthRequest stitchReq s with
    | Err e => reject e s
    | Ok req =>
        orCatch (doRequest req)
          (fun err => handleAuthFailure_ err stitchReq) s
    end.

End Knot.

(** The recursion is at most two calls deep: the request of a refresh uses
    the refresh token and the retried request has
    [shouldRefreshOnFailure = false], and neither is handled by a further
    call (see [doAuthenticatedRequest_unfold]). *)
Fixpoint doAuthenticatedRequest_depth (depth : nat)
  : StitchAuthRequest -> Async CoreStitchAuth Response :=
  match depth with
  | O => fun _ => reject (JsError "call depth exceeded")
  | S d => doAuthenticatedRequest_ (doAuthenticatedRequest_depth d)
  end.

Definition doAuthenticatedRequest
  : StitchAuthRequest -> Async CoreStitchAuth Response :=
  doAuthenticatedRequest_depth 2.

Definition refreshAccessToken : Async CoreStitchAuth unit :=
  refreshAccessToken_ doAuthenticatedRequest.

Definition tryRefreshAccessToken : Z -> Async CoreStitchAuth unit :=
  tryRefreshAccessToken_ doAuthenticatedRequest.

Definition handleAuthFailure
  : Error -> StitchAuthRequest -> Async CoreStitchAuth Response :=
  handleAuthFailure_ doAuthenticatedRequest.

(** The request that a refresh dispatches from state [s]. *)
Definition refreshRequest (s : CoreStitchAuth) : StitchRequest :=
  authorized (newAuthRequest POST (sessionRoute (authRoutes H)) true s) s.

(** The access token decodes and was issued at or after [reqStartedAt]. *)
Definition issuedSince (reqStartedAt : Z) (s : CoreStitchAuth) : Prop :=
  exists jwt, JWT_fromEncoded H (accessToken (authInfo s)) = Some jwt /\
              (reqStartedAt <= issuedAt jwt)%Z.

(** *** Login, link and logout *)

(** [doLogout()] *)
Definition doLogout : Async CoreStitchAuth unit :=
  fun s =>
    andThen
      (doAuthenticatedRequest
         (newAuthRequest DELETE (sessionRoute (authRoutes H)) true s))
      (fun _ => resolve tt) s.

(** [logoutInternal()] *)
Definition logoutInternal : Async CoreStitchAuth unit :=
  fun s =>
    if negb (isLoggedIn s) then resolve tt s
    else
      orCatch (andThen doLogout (fun _ => sync clearAuth))
        (fun _ => sync clearAuth) s.

(** [doGetUserProfile()] *)
Definition doGetUserProfile : Async CoreStitchAuth StitchUserProfileImpl :=
  fun s =>
    orCatch
      (andThen
         (doAuthenticatedRequest
            (newAuthRequest GET (profileRoute (authRoutes H)) false s))
         (fun response =>
            match ApiCoreUserProfile_fromJSON H (body response) with
            | Ok profile => resolve profile
            | Err e => reject e
            end))
      (fun err =>
         if isStitchError err then reject err
         else reject (StitchRequestError err DECODING_ERROR)) s.

(** [processLogin(credential, newAuthInfo, asLinkRequest)] *)
Definition processLogin (credential : StitchCredential)
  (newAuthInfo : AuthInfo) (asLinkRequest : bool)
  : Async CoreStitchAuth (TStitchUser H) :=
  fun s =>
    let oldInfo := authInfo s in
    let oldUser := currentUser s in
    let newAuthInfo1 :=
      merge (authInfo s)
        {| userId := userId newAuthInfo;
           deviceId := deviceId newAuthInfo;
           accessToken := accessToken newAuthInfo;
           refreshToken := refreshToken newAuthInfo;
           loggedInProviderType := Some (providerType credential);
           loggedInProviderName := Some (providerName credential);
           userProfile := None |} in
    let s1 :=
      setCurrentUser
        (Some (makeUser H (userId newAuthInfo1)
                 (Some (providerType credential))
                 (Some (providerName credential)) None))
        (setAuthInfo newAuthInfo1 s) in
    orCatch
      (andThen doGetUserProfile
         (fun profile s2 =>
            let newAuthInfo2 :=
              merge newAuthInfo1
                {| userId := userId newAuthInfo1;
                   deviceId := deviceId newAuthInfo1;
                   accessToken := accessToken newAuthInfo1;
                   refreshToken := refreshToken newAuthInfo1;
                   loggedInProviderType := Some (providerType credential);
                   loggedInProviderName := Some (providerName credential);
                   userProfile := Some profile |} in
            let (s3, ok) := tryWriteToStorage newAuthInfo2 s2 in
            if ok then
              let u := makeUser H (userId newAuthInfo2)
                         (Some (providerType credential))
                         (Some (providerName credential)) (Some profile) in
              resolve u (setCurrentUser (Some u) (setAuthInfo newAuthInfo2 s3))
            else reject (StitchClientError CouldNotPersistAuthInfo) s3))
      (fun err s2 =>
         if asLinkRequest then
           reject err (setCurrentUser oldUser (setAuthInfo oldInfo s2))
         else
           let (s3, r) := clearAuth s2 in
           match r with
           | Ok _ => reject err s3
           | Err e => reject e s3
           end) s1.

(** [!response.body]: the body is undefined or the empty string. *)
Definition noBody (response : Response) : bool :=
  match body response with
  | None => true
  | Some b => String.eqb b ""
  end.

(** [processLoginResponse(credential, response, asLinkRequest)].  The
    [try] of the source catches what is thrown before [processLogin]
    returns its promise; the transport's promise is typed to resolve with a
    response, so the guard on an undefined response cannot fire. *)
Definition processLoginResponse (credential : StitchCredential)
  (response : Response) (asLinkRequest : bool)
  : Async CoreStitchAuth (TStitchUser H) :=
  if noBody response then
    reject (StitchRequestError (StitchServiceError Unknown) DECODING_ERROR)
  else
    match ApiAuthInfo_fromJSON H (body response) with
    | Err err => reject (StitchRequestError err DECODING_ERROR)
    | Ok info => processLogin credential info asLinkRequest
    end.

(** [attachAuthOptions(authBody)] *)
Definition attachAuthOptions (authBody : list (string * Json))
  : list (string * Json) :=
  let options := setKey DEVICE (JObject (deviceInfo H)) [] in
  setKey OPTIONS (JObject options) authBody.

(** [doLoginRequest(credential, asLinkRequest)] *)
Definition doLoginRequest (credential : StitchCredential)
  (asLinkRequest : bool) : Async CoreStitchAuth Response :=
  fun s =>
    let route :=
      if asLinkRequest
      then getAuthProviderLinkRoute (authRoutes H) (providerName credential)
      else getAuthProviderLoginRoute (authRoutes H) (providerName credential)
    in
    let req :=
      {| method := POST; path := route; headers := [];
         document := Some (attachAuthOptions (material credential));
         startedAt := clock s |} in
    if negb asLinkRequest then doRequest req s
    else
      doAuthenticatedRequest
        {| request := req; useRefreshToken := false;
           shouldRefreshOnFailure := builderShouldRefreshOnFailure H |} s.

(** [doLogin(credential, asLinkRequest)] *)
Definition doLogin (credential : StitchCredential) (asLinkRequest : bool)
  : Async CoreStitchAuth (TStitchUser H) :=
  andThen
    (andThen (doLoginRequest credential asLinkRequest)
       (fun response =>
          processLoginResponse credential response asLinkRequest))
    (fun u s => resolve u (onAuthEvent s)).

(** What a call of [loginWithCredentialInternal] leaves behind: the state
    after its synchronous part, the promise it returns, and the promise of
    [logoutInternal()] that it starts and drops (the statement
    [this.logoutInternal();] does not chain on the result). *)
Record LoginCall : Type := {
  stateAfterCall : CoreStitchAuth;
  returned : Promise CoreStitchAuth (TStitchUser H);
  dropped : option (Promise CoreStitchAuth unit)
}.

Definition returning (r : CoreStitchAuth * Promise CoreStitchAuth (TStitchUser H))
  : LoginCall :=
  {| stateAfterCall := fst r; returned := snd r; dropped := None |}.

Definition optString_eqb (a b : option string) : bool :=
  match a, b with
  | Some x, Some y => String.eqb x y
  | None, None => true
  | _, _ => false
  end.

(** [loginWithCredentialInternal(credential)] *)
Definition loginWithCredentialInternal (credential : StitchCredential)
  (s : CoreStitchAuth) : LoginCall :=
  match authResponse credential with
  | Some c =>
      returning (processLogin credential (responseAuthInfo c) (asLink c) s)
  | None =>
      match currentUser s with
      | None => returning (doLogin credential false s)
      | Some u =>
          if reusesExistingSession (providerCapabilities credential) &&
             optString_eqb (Some (providerType credential))
               (userLoggedInProviderType H u)
          then returning (resolve u s)
          else
            let (s1, pLogout) := logoutInternal s in
            let (s2, pLogin) := doLogin credential false s1 in
            {| stateAfterCall := s2; returned := pLogin;
               dropped := Some pLogout |}
      end
  end.


(** *** Vocabulary of the statements *)

(** The request that [logoutInternal] dispatches from state [s]. *)
Definition logoutRequest (s : CoreStitchAuth) : StitchRequest :=
  authorized (newAuthRequest DELETE (sessionRoute (authRoutes H)) true s) s.


(** The state that [processLogin] sets provisionally before it requests
    the profile. *)
Definition provisional (credential : StitchCredential) (newAuthInfo : AuthInfo)
  (s : CoreStitchAuth) : CoreStitchAuth :=
  let newAuthInfo1 :=
    merge (authInfo s)
      {| userId := userId newAuthInfo;
         deviceId := deviceId newAuthInfo;
         accessToken := accessToken newAuthInfo;
         refreshToken := refreshToken newAuthInfo;
         loggedInProviderType := Some (providerType credential);
         loggedInProviderName := Some (providerName credential);
         userProfile := None |} in
  setCurrentUser
    (Some (makeUser H (userId newAuthInfo1)
             (Some (providerType credential))
             (Some (providerName credential)) None))
    (setAuthInfo newAuthInfo1 s).

End CoreStitchAuth.

(** ** A concrete host

    A small instance of the collaborators, on which the operations compute:
    a storage that accepts a given number of writes, users that record what
    the factory was given, and decoders given by tables. *)
Module Demo.

Record Store : Type := {
  stored : option AuthInfo;
  writesLeft : nat
}.

Definition write (info : AuthInfo) (st : Store) : Store * bool :=
  match writesLeft st with
  | O => (st, false)
  | S n => ({| stored := Some info; writesLeft := n |}, true)
  end.

Record User : Type := {
  userIdOf : option string;
  providerTypeOf : option string;
  providerNameOf : option string;
  profileOf : option StitchUserProfileImpl
}.

Definition routes : StitchAuthRoutes :=
  {| sessionRoute := "/auth/session";
     profileRoute := "/auth/profile";
     getAuthProviderLoginRoute := fun n => "/auth/providers/" ++ n ++ "/login";
     getAuthProviderLinkRoute :=
       fun n => "/auth/providers/" ++ n ++ "/login?link=true" |}.

(** Tokens ["a1"] and ["a2"] decode, issued at 100 and at 300. *)
Definition decodeJWT (token : option string) : option JWT :=
  match token with
  | Some t =>
      if String.eqb t "a1" then Some {| expires := 1000; issuedAt := 100 |}
      else if String.eqb t "a2" then Some {| expires := 1200; issuedAt := 300 |}
      else None
  | None => None
  end.

Definition partialInfo (u d a r : option string) : AuthInfo :=
  {| userId := u; deviceId := d; accessToken := a; refreshToken := r;
     loggedInProviderType := None; loggedInProviderName := None;
     userProfile := None |}.

(** Body ["login-u2"] is a full login answer for user [u2], body
    ["refreshed"] a refresh answer with a new access token. *)
Definition decodeAuthInfo (b : option string) : Result AuthInfo :=
  match b with
  | Some t =>
      if String.eqb t "login-u2"
      then Ok (partialInfo (Some "u2") (Some "d1") (Some "a2") (Some "r2"))
      else if String.eqb t "refreshed"
      then Ok (partialInfo None None (Some "a2") None)
      else Err (JsError "SyntaxError")
  | None => Err (JsError "SyntaxError")
  end.

Definition decodeProfile (b : option string) : Result StitchUserProfileImpl :=
  match b with
  | Some t =>
      if String.eqb t "profile" then Ok [("name", JString "Alice")]
      else Err (JsError "SyntaxError")
  | None => Err (JsError "SyntaxError")
  end.

Definition host : Host :=
  {| Storage := Store;
     readFromStorage := fun st => Ok (stored st);
     writeToStorage := write;
     TStitchUser := User;
     makeUser := fun i t n p =>
       {| userIdOf := i; providerTypeOf := t; providerNameOf := n;
          profileOf := p |};
     id := userIdOf;
     userLoggedInProviderType := providerTypeOf;
     authRoutes := routes;
     deviceInfo := [];
     JWT_fromEncoded := decodeJWT;
     ApiAuthInfo_fromJSON := decodeAuthInfo;
     ApiCoreUserProfile_fromJSON := decodeProfile;
     builderShouldRefreshOnFailure := true |}.

(** User [u1], logged in anonymously with tokens [a1] and [r1]. *)
Definition info1 : AuthInfo :=
  {| userId := Some "u1"; deviceId := Some "d1";
     accessToken := Some "a1"; refreshToken := Some "r1";
     loggedInProviderType := Some "anon-user";
     loggedInProviderName := Some "anon-user";
     userProfile := None |}.

Definition user1 : User :=
  {| userIdOf := Some "u1"; providerTypeOf := Some "anon-user";
     providerNameOf := Some "anon-user"; profileOf := None |}.

(** Logged in as [u1], at time 200, over a storage that accepts [writes]
    more writes. *)
Definition loggedIn (writes : nat) : CoreStitchAuth host :=
  @Build_CoreStitchAuth host info1 (Some user1)
    {| stored := Some info1; writesLeft := writes |} 200 [].

Definition loggedOutState (writes : nat) : CoreStitchAuth host :=
  @Build_CoreStitchAuth host AuthInfoOps.empty None
    {| stored := None; writesLeft := writes |} 200 [].

Definition invalidSession : Error := StitchServiceError InvalidSession.

Definition answer (b : string) : Result Response :=
  Ok {| statusCode := 200; body := Some b |}.

(** A request of the application: not with the refresh token, and allowed
    to refresh on failure. *)
Definition appRequest (started : Z) : StitchAuthRequest :=
  {| request := {| method := GET; path := "/app/data"; headers := [];
                   document := None; startedAt := started |};
     useRefreshToken := false;
     shouldRefreshOnFailure := true |}.

(** A failure of the transport. *)
Definition transportError : Error :=
  StitchRequestError (JsError "offline") TRANSPORT_ERROR.

Definition apiKey : StitchCredential :=
  UserApiKeyCredential "secret" UserApiKeyAuthProvider.DEFAULT_NAME.

(** The auth info of the server's answer ["login-u2"]. *)
Definition info2 : AuthInfo :=
  partialInfo (Some "u2") (Some "d1") (Some "a2") (Some "r2").

Definition user2 : User :=
  {| userIdOf := Some "u2"; providerTypeOf := Some "api-key";
     providerNameOf := Some "api-key";
     profileOf := Some [("name", JString "Alice")] |}.


End Demo.

(** ** Outcomes of a call run alone *)

Section Outcomes.

Variable St : Type.

(** [alone Q s p]: when the transport answers each request of [p] in the
    state the promise was left in, starting from [s], every settlement [r]
    in a final state [s'] satisfies [Q s' r]. *)
Inductive alone {A : Type} (Q : St -> Result A -> Prop)
  : St -> Promise St A -> Prop :=
| alone_settled : forall s r, Q s r -> alone Q s (Settled r)
| alone_pending : forall s req k,
    (forall r, alone Q (fst (k r s)) (snd (k r s))) ->
    alone Q s (Pending req k).

End Outcomes.

(** ** The rest of the class *)

Section CoreStitchAuthRest.

Variable H : Host.

(** The three ways of being logged in agree: there is a current user
    ([isLoggedIn]) exactly when [authInfo.userId] is defined. *)
Definition coherent (s : CoreStitchAuth H) : Prop :=
  isLoggedIn s = true <-> userId (authInfo s) <> None.

(** How a call may end without breaking [coherent]: resolved while logged
    in, or rejected, and then either in a coherent state or with the
    persistence error (and a current user still set). *)
Definition endsCoherent {A : Type} (s : CoreStitchAuth H) (r : Result A)
  : Prop :=
  match r with
  | Ok _ => coherent s /\ isLoggedIn s = true
  | Err e =>
      (e = StitchClientError CouldNotPersistAuthInfo /\ isLoggedIn s = true) \/
      coherent s
  end.

(** How [logoutInternal] may end: resolved with nobody logged in, or
    rejected with the persistence error. *)
Definition endsLoggedOut (s : CoreStitchAuth H) (r : Result unit) : Prop :=
  match r with
  | Ok _ => coherent s /\ isLoggedIn s = false
  | Err e => e = StitchClientError CouldNotPersistAuthInfo /\
             isLoggedIn s = true
  end.

(** The auth info that [processLogin] commits once the profile is there. *)
Definition committed (credential : StitchCredential) (newAuthInfo : AuthInfo)
  (profile : StitchUserProfileImpl) (s : CoreStitchAuth H) : AuthInfo :=
  let newAuthInfo1 := authInfo (provisional credential newAuthInfo s) in
  merge newAuthInfo1
    {| userId := userId newAuthInfo1;
       deviceId := deviceId newAuthInfo1;
       accessToken := accessToken newAuthInfo1;
       refreshToken := refreshToken newAuthInfo1;
       loggedInProviderType := Some (providerType credential);
       loggedInProviderName := Some (providerName credential);
       userProfile := Some profile |}.

(** The login request of [doLoginRequest(credential, false)]. *)
Definition loginRequest (credential : StitchCredential) (s : CoreStitchAuth H)
  : StitchRequest :=
  {| method := POST;
     path := getAuthProviderLoginRoute (authRoutes H) (providerName credential);
     headers := [];
     document := Some (attachAuthOptions H (material credential));
     startedAt := clock s |}.

(** The profile request of [doGetUserProfile]. *)
Definition profileRequest (s : CoreStitchAuth H) : StitchRequest :=
  authorized (newAuthRequest GET (profileRoute (authRoutes H)) false s) s.

(** *** The decoding variant of the authenticated request *)

Section Decoder.

Variable T : Type.

(** [EJSON.parse(response.body!, { strict: false })] followed by
    [decoder.decode] when a decoder is given; [Err]: one of them threw. *)
Variable decode : option string -> Result T.

(** [wrapDecodingError(err)], which is not in the sources. *)
Variable wrapDecodingError : Error -> Error.

(** [doAuthenticatedRequestWithDecoder(stitchReq, decoder)].  When
    [prepareAuthRequest] throws, it does so before any callback is attached,
    and the error is not wrapped. *)
Definition doAuthenticatedRequestWithDecoder (stitchReq : StitchAuthRequest)
  : Async (CoreStitchAuth H) T :=
  fun s =>
    match prepareAuthRequest stitchReq s with
    | Err e => reject e s
    | Ok _ =>
        orCatch
          (andThen (doAuthenticatedRequest stitchReq)
             (fun response =>
                match decode (body response) with
                | Ok obj => resolve obj
                | Err e => reject e
                end))
          (fun err => reject (wrapDecodingError err)) s
    end.

End Decoder.

(** *** Event streams *)

Section Streams.

(** The stream that the transport opens. *)
Variable EventStream : Type.

(** A promise of the streaming calls: it waits for the answer to a request
    (the refresh) or for the transport to open a stream.  [reopenWith] is
    the request that the callback given to the transport,
    [() => this.openAuthenticatedEventStream(stitchReq, false)], holds. *)
Inductive StreamPromise (A : Type) : Type :=
| StreamSettled (r : Result A)
| AwaitingResponse
    (req : StitchRequest)
    (k : Result Response -> CoreStitchAuth H ->
         CoreStitchAuth H * StreamPromise A)
| AwaitingStream
    (req : StitchRequest) (open : bool) (reopenWith : StitchAuthRequest)
    (k : Result EventStream -> CoreStitchAuth H ->
         CoreStitchAuth H * StreamPromise A).

Arguments StreamSettled {A} r.
Arguments AwaitingResponse {A} req k.
Arguments AwaitingStream {A} req open reopenWith k.

(** [p.then(onOk, onErr)] for a promise [p] of the request client whose
    callbacks open streams. *)
Fixpoint thenStream {A B : Type} (p : Promise (CoreStitchAuth H) A)
  (k : Result A -> CoreStitchAuth H -> CoreStitchAuth H * StreamPromise B)
  : CoreStitchAuth H -> CoreStitchAuth H * StreamPromise B :=
  match p with
  | Settled r => k r
  | Pending req c =>
      fun s => (s, AwaitingResponse req (fun resp s' =>
                      let (s'', p') := c resp s' in thenStream p' k s''))
  end.

(** [stitchReq.builder.withPath(`${stitchReq.path}&stitch_at=${authToken}`).build()] *)
Definition streamRequest (stitchReq : StitchAuthRequest) (s : CoreStitchAuth H)
  : StitchRequest :=
  let authToken := if useRefreshToken stitchReq
                   then refreshToken (authInfo s)
                   else accessToken (authInfo s) in
  {| method := method (request stitchReq);
     path := path (request stitchReq) ++ "&stitch_at=" ++
             match authToken with Some t => t | None => "undefined" end;
     headers := headers (request stitchReq);
     document := document (request stitchReq);
     startedAt := startedAt (request stitchReq) |}.

Section StreamKnot.

Variable self : StitchAuthRequest -> bool -> CoreStitchAuth H ->
                CoreStitchAuth H * StreamPromise EventStream.

(** [handleAuthFailureForEventStream(ex, req, open)] *)
Definition handleAuthFailureForEventStream_ (ex : Error)
  (req : StitchAuthRequest) (open : bool)
  : CoreStitchAuth H -> CoreStitchAuth H * StreamPromise EventStream :=
  fun s =>
    if negb (isInvalidSession ex) then (s, StreamSettled (Err ex))
    else if useRefreshToken req || negb (shouldRefreshOnFailure req) then
      let (s', r) := clearAuth s in
      match r with
      | Ok _ => (s', StreamSettled (Err ex))
      | Err e => (s', StreamSettled (Err e))
      end
    else
      let (s1, p) := tryRefreshAccessToken (startedAt (request req)) s in
      thenStream p
        (fun r => match r with
                  | Ok _ => self (withShouldRefreshOnFailure false req) open
                  | Err e => fun s2 => (s2, StreamSettled (Err e))
                  end) s1.

(** [openAuthenticatedEventStream(stitchReq, open)] *)
Definition openAuthenticatedEventStream_ (stitchReq : StitchAuthRequest)
  (open : bool)
  : CoreStitchAuth H -> CoreStitchAuth H * StreamPromise EventStream :=
  fun s =>
    if negb (isLoggedIn s)
    then (s, StreamSettled (Err (StitchClientError MustAuthenticateFirst)))
    else
      (s, AwaitingStream (streamRequest stitchReq s) open stitchReq
            (fun r s' =>
               match r with
               | Ok eventStream => (s', StreamSettled (Ok eventStream))
               | Err err =>
                   handleAuthFailureForEventStream_ err stitchReq open s'
               end)).

End StreamKnot.

(** As for the plain request, the recursion is two calls deep. *)
Fixpoint openAuthenticatedEventStream_depth (depth : nat)
  : StitchAuthRequest -> bool -> CoreStitchAuth H ->
    CoreStitchAuth H * StreamPromise EventStream :=
  match depth with
  | O => fun _ _ s => (s, StreamSettled (Err (JsError "call depth exceeded")))
  | S d => openAuthenticatedEventStream_ (openAuthenticatedEventStream_depth d)
  end.

Definition openAuthenticatedEventStream
  : StitchAuthRequest -> bool -> CoreStitchAuth H ->
    CoreStitchAuth H * StreamPromise EventStream :=
  openAuthenticatedEventStream_depth 2.

Definition handleAuthFailureForEventStream
  : Error -> StitchAuthRequest -> bool -> CoreStitchAuth H ->
    CoreStitchAuth H * StreamPromise EventStream :=
  handleAuthFailureForEventStream_ openAuthenticatedEventStream.

(** [waitsWithin n m p]: whatever the transport answers, [p] settles after
    at most [n] requests and [m] openings of a stream. *)
Inductive waitsWithin {A : Type} : nat -> nat -> StreamPromise A -> Prop :=
| waits_settled : forall n m r, waitsWithin n m (StreamSettled r)
| waits_response : forall n m req k,
    (forall r s, waitsWithin n m (snd (k r s))) ->
    waitsWithin (S n) m (AwaitingResponse req k)
| waits_stream : forall n m req open reopenWith k,
    (forall r s, waitsWithin n m (snd (k r s))) ->
    waitsWithin n (S m) (AwaitingStream req open reopenWith k).

End Streams.

End CoreStitchAuthRest.

Arguments StreamSettled {H EventStream A} r.
Arguments AwaitingResponse {H EventStream A} req k.
Arguments AwaitingStream {H EventStream A} req open reopenWith k.

(** * Properties *)

(** ** Promises: chaining and running *)

Section PromiseFacts.

Variable St : Type.

Lemma run_chainP {A B : Type} (k : Result A -> Async St B) :
  forall (net : list (Result Response)) (p : Promise St A) (s s2 : St)
         (r : Result A) (rest : list (Result Response)),
    run p net s = (s2, Settled r, rest) ->
    runA (chainP p k) net s = runA (k r) rest s2.
Proof.
  induction net as [|a net IH]; intros p s s2 r rest Hrun.
  - destruct p as [r0|req c]; simpl in Hrun.
    + inversion Hrun; subst. reflexivity.
    + discriminate.
  - destruct p as [r0|req c]; simpl in Hrun.
    + inversion Hrun; subst. reflexivity.
    + unfold runA. simpl.
      destruct (c a s) as [s' p'] eqn:Hc.
      specialize (IH p' s' s2 r rest Hrun).
      unfold runA in IH.
      destruct (chainP p' k s') as [s1 q]. exact IH.
Qed.

Lemma runA_chain {A B : Type} (m : Async St A) (k : Result A -> Async St B)
  (net rest : list (Result Response)) (s s2 : St) (r : Result A) :
  runA m net s = (s2, Settled r, rest) ->
  runA (chain m k) net s = runA (k r) rest s2.
Proof.
  unfold runA at 1. unfold chain.
  destruct (m s) as [s1 p] eqn:Hm. intros Hrun.
  pose proof (run_chainP k _ _ _ Hrun) as Hc.
  unfold runA in *. rewrite Hm. exact Hc.
Qed.

Lemma settlesWithin_mono {A : Type} (n : nat) (p : Promise St A) :
  settlesWithin n p -> forall m, n <= m -> settlesWithin m p.
Proof.
  induction 1 as [n r|n req k _ IH]; intros m Hle.
  - constructor.
  - destruct m as [|m]; [lia|].
    constructor. intros r s. apply IH. lia.
Qed.

Lemma settlesWithin_chainP {A B : Type} (n m : nat) (p : Promise St A)
  (k : Result A -> Async St B) :
  settlesWithin n p ->
  (forall r s, settlesWithin m (snd (k r s))) ->
  forall s, settlesWithin (n + m) (snd (chainP p k s)).
Proof.
  intros Hp Hk. induction Hp as [n r|n req c _ IH]; intros s.
  - simpl. apply settlesWithin_mono with (n := m); [apply Hk | lia].
  - simpl. constructor. intros r s'.
    destruct (c r s') as [s'' p'] eqn:Hc.
    specialize (IH r s' s''). rewrite Hc in IH. exact IH.
Qed.

Lemma settlesWithin_chain {A B : Type} (n m : nat) (a : Async St A)
  (k : Result A -> Async St B) :
  (forall s, settlesWithin n (snd (a s))) ->
  (forall r s, settlesWithin m (snd (k r s))) ->
  forall s, settlesWithin (n + m) (snd (chain a k s)).
Proof.
  intros Ha Hk s. unfold chain.
  specialize (Ha s). destruct (a s) as [s1 p].
  apply settlesWithin_chainP; assumption.
Qed.

(** A promise that settles within [n] requests dispatches at most [n]. *)
Lemma settlesWithin_dispatched {A : Type} (n : nat) (p : Promise St A) :
  settlesWithin n p ->
  forall net s, length (dispatched p net s) <= n.
Proof.
  induction 1 as [n r|n req k Hk IH]; intros net s; simpl.
  - lia.
  - destruct net as [|r net]; simpl; [lia|].
    specialize (IH r s net). destruct (k r s) as [s' p'].
    specialize (IH s'). simpl in IH. lia.
Qed.

(** With [n] answers it has settled: the run is total. *)
Lemma settlesWithin_run {A : Type} (n : nat) (p : Promise St A) :
  settlesWithin n p ->
  forall net s, n <= length net ->
    exists s' r rest, run p net s = (s', Settled r, rest).
Proof.
  induction 1 as [n r|n req k Hk IH]; intros net s Hlen; simpl.
  - eauto.
  - destruct net as [|r net]; simpl in Hlen; [lia|].
    specialize (IH r s). destruct (k r s) as [s' p'].
    apply IH. lia.
Qed.

End PromiseFacts.

Unset Implicit Arguments.

Section Facts.

Variable H : Host.

Implicit Types (s : CoreStitchAuth H) (req : StitchAuthRequest) (ex : Error).

(** ** The recursion of the authenticated request *)

Lemma doAuthenticatedRequest_unfold req :
  doAuthenticatedRequest (H:=H) req =
  doAuthenticatedRequest_ (doAuthenticatedRequest (H:=H)) req.
Proof.
  destruct req as [r [] []]; reflexivity.
Qed.

(** More depth changes nothing: depth two is the whole function. *)
Lemma doAuthenticatedRequest_deeper (d : nat) req :
  doAuthenticatedRequest_depth (H:=H) (2 + d) req = doAuthenticatedRequest req.
Proof.
  induction d as [|d IH].
  - reflexivity.
  - rewrite <- IH. destruct req as [r [] []]; reflexivity.
Qed.

(** ** [clearAuth] *)

Lemma clearAuth_loggedOut s :
  isLoggedIn s = false -> clearAuth s = (s, Ok tt).
Proof.
  intros Hout. unfold clearAuth. rewrite Hout. reflexivity.
Qed.

Lemma clearAuth_persisted s st :
  isLoggedIn s = true ->
  writeToStorage H (loggedOut (authInfo s)) (storage s) = (st, true) ->
  clearAuth s =
  ({| authInfo := loggedOut (authInfo s); currentUser := None;
      storage := st; clock := clock s;
      log := log s ++ [Persisted (loggedOut (authInfo s)); AuthEvent] |},
   Ok tt).
Proof.
  intros Hin Hw. unfold clearAuth, tryWriteToStorage. rewrite Hin. simpl.
  rewrite Hw. simpl. unfold onAuthEvent, record, setCurrentUser. simpl.
  rewrite <- app_assoc. reflexivity.
Qed.

Lemma clearAuth_failed s st :
  isLoggedIn s = true ->
  writeToStorage H (loggedOut (authInfo s)) (storage s) = (st, false) ->
  clearAuth s =
  ({| authInfo := loggedOut (authInfo s); currentUser := currentUser s;
      storage := st; clock := clock s;
      log := log s ++ [PersistFailed (loggedOut (authInfo s))] |},
   Err (StitchClientError CouldNotPersistAuthInfo)).
Proof.
  intros Hin Hw. unfold clearAuth, tryWriteToStorage. rewrite Hin. simpl.
  rewrite Hw. reflexivity.
Qed.

(** [clearAuth] throws nothing but the persistence error. *)
Lemma clearAuth_error s s' e :
  clearAuth s = (s', Err e) -> e = StitchClientError CouldNotPersistAuthInfo.
Proof.
  unfold clearAuth. destruct (isLoggedIn s); simpl; [|discriminate].
  destruct (tryWriteToStorage _ _) as [s2 []]; intros Heq;
    inversion Heq; reflexivity.
Qed.

(** ** The shape of an authenticated request *)

Lemma doAuthenticatedRequest_loggedOut req s :
  isLoggedIn s = false ->
  doAuthenticatedRequest req s =
  (s, Settled (Err (StitchClientError MustAuthenticateFirst))).
Proof.
  intros Hout. rewrite doAuthenticatedRequest_unfold.
  unfold doAuthenticatedRequest_, prepareAuthRequest. rewrite Hout.
  reflexivity.
Qed.

Lemma doAuthenticatedRequest_pending req s :
  isLoggedIn s = true ->
  exists k,
    doAuthenticatedRequest req s = (s, Pending (authorized req s) k) /\
    forall r s',
      k r s' = match r with
               | Ok response => (s', Settled (Ok response))
               | Err ex => handleAuthFailure ex req s'
               end.
Proof.
  intros Hin. rewrite doAuthenticatedRequest_unfold.
  unfold doAuthenticatedRequest_, prepareAuthRequest. rewrite Hin. simpl.
  eexists. split; [reflexivity|].
  intros [response|ex] s'; reflexivity.
Qed.

Lemma handleAuthFailure_other ex req s :
  isInvalidSession ex = false ->
  handleAuthFailure ex req s = (s, Settled (Err ex)).
Proof.
  intros Hex. unfold handleAuthFailure, handleAuthFailure_. rewrite Hex.
  reflexivity.
Qed.

Lemma handleAuthFailure_final ex req s :
  isInvalidSession ex = true ->
  useRefreshToken req || negb (shouldRefreshOnFailure req) = true ->
  handleAuthFailure ex req s =
  (fst (clearAuth s),
   Settled (Err (match snd (clearAuth s) with
                 | Ok _ => ex
                 | Err e => e
                 end))).
Proof.
  intros Hex Hfinal. unfold handleAuthFailure, handleAuthFailure_.
  rewrite Hex, Hfinal. simpl.
  destruct (clearAuth s) as [s' [[]|e]]; reflexivity.
Qed.

Lemma handleAuthFailure_retry ex req s :
  isInvalidSession ex = true ->
  useRefreshToken req = false ->
  shouldRefreshOnFailure req = true ->
  handleAuthFailure ex req s =
  andThen (tryRefreshAccessToken (startedAt (request req)))
    (fun _ => doAuthenticatedRequest (withShouldRefreshOnFailure false req)) s.
Proof.
  intros Hex Hu Hr. unfold handleAuthFailure, handleAuthFailure_.
  rewrite Hex, Hu, Hr. reflexivity.
Qed.

(** ** The refresh *)

Lemma refreshAccessToken_loggedOut s :
  isLoggedIn s = false ->
  refreshAccessToken s =
  (s, Settled (Err (StitchClientError MustAuthenticateFirst))).
Proof.
  intros Hout. unfold refreshAccessToken, refreshAccessToken_, andThen, chain.
  rewrite doAuthenticatedRequest_loggedOut by exact Hout. reflexivity.
Qed.

Lemma refreshAccessToken_pending s :
  isLoggedIn s = true ->
  exists k,
    refreshAccessToken s = (s, Pending (refreshRequest s) k) /\
    forall r s',
      k r s' =
      match r with
      | Err ex =>
          if isInvalidSession ex
          then (fst (clearAuth s'),
                Settled (Err (match snd (clearAuth s') with
                              | Ok _ => ex
                              | Err e => e
                              end)))
          else (s', Settled (Err ex))
      | Ok response =>
          match ApiAuthInfo_fromJSON H (body response) with
          | Err err =>
              (s', Settled (Err (StitchRequestError err DECODING_ERROR)))
          | Ok partialInfo =>
              let merged := merge (authInfo s') partialInfo in
              let (s2, ok) := tryWriteToStorage merged (setAuthInfo merged s') in
              (s2, Settled (if ok then Ok tt
                            else Err (StitchClientError CouldNotPersistAuthInfo)))
          end
      end.
Proof.
  intros Hin. unfold refreshAccessToken, refreshAccessToken_, andThen, chain.
  destruct (doAuthenticatedRequest_pending
              (newAuthRequest POST (sessionRoute (authRoutes H)) true s) s Hin)
    as [k0 [Heq Hk0]].
  rewrite Heq. simpl. eexists. split; [reflexivity|].
  intros r s'. cbv beta. rewrite Hk0. destruct r as [response|ex].
  - simpl. destruct (ApiAuthInfo_fromJSON H (body response)); [|reflexivity].
    simpl. destruct (tryWriteToStorage _ _) as [s2 []]; reflexivity.
  - destruct (isInvalidSession ex) eqn:Hex.
    + rewrite handleAuthFailure_final by (exact Hex || reflexivity).
      reflexivity.
    + rewrite handleAuthFailure_other by exact Hex. reflexivity.
Qed.

(** ** How many requests an operation can dispatch *)

Lemma settles_final req :
  useRefreshToken req || negb (shouldRefreshOnFailure req) = true ->
  forall s, settlesWithin 1 (snd (doAuthenticatedRequest req s)).
Proof.
  intros Hfinal s. destruct (isLoggedIn s) eqn:Hin.
  - destruct (doAuthenticatedRequest_pending req s Hin) as [k [Heq Hk]].
    rewrite Heq. simpl. constructor. intros r s'. rewrite Hk.
    destruct r as [response|ex]; [constructor|].
    destruct (isInvalidSession ex) eqn:Hex.
    + rewrite handleAuthFailure_final by assumption. constructor.
    + rewrite handleAuthFailure_other by assumption. constructor.
  - rewrite doAuthenticatedRequest_loggedOut by exact Hin. constructor.
Qed.

Lemma settles_refresh s :
  settlesWithin 1 (snd (refreshAccessToken s)).
Proof.
  destruct (isLoggedIn s) eqn:Hin.
  - destruct (refreshAccessToken_pending s Hin) as [k [Heq Hk]].
    rewrite Heq. simpl. constructor. intros r s'. rewrite Hk.
    destruct r as [response|ex].
    + destruct (ApiAuthInfo_fromJSON H (body response)); [|constructor].
      simpl. destruct (tryWriteToStorage _ _) as [s2 ok]. constructor.
    + destruct (isInvalidSession ex); constructor.
  - rewrite refreshAccessToken_loggedOut by exact Hin. constructor.
Qed.

Lemma settles_tryRefresh (t : Z) s :
  settlesWithin 1 (snd (tryRefreshAccessToken t s)).
Proof.
  unfold tryRefreshAccessToken, tryRefreshAccessToken_.
  destruct (isLoggedIn s); simpl; [|constructor].
  destruct (JWT_fromEncoded H (accessToken (authInfo s))) as [jwt|].
  - destruct (issuedAt jwt >=? t)%Z; [constructor|apply settles_refresh].
  - apply settles_refresh.
Qed.

Lemma settles_doAuthenticatedRequest req s :
  settlesWithin 3 (snd (doAuthenticatedRequest req s)).
Proof.
  destruct (useRefreshToken req || negb (shouldRefreshOnFailure req)) eqn:Hf.
  - apply settlesWithin_mono with (n := 1); [apply settles_final; exact Hf|lia].
  - apply orb_false_elim in Hf. destruct Hf as [Hu Hr].
    apply negb_false_iff in Hr.
    destruct (isLoggedIn s) eqn:Hin.
    + destruct (doAuthenticatedRequest_pending req s Hin) as [k [Heq Hk]].
      rewrite Heq. simpl. constructor. intros r s'. rewrite Hk.
      destruct r as [response|ex]; [constructor|].
      destruct (isInvalidSession ex) eqn:Hex.
      * rewrite handleAuthFailure_retry by assumption.
        apply (settlesWithin_chain (n := 1) (m := 1)).
        -- apply settles_tryRefresh.
        -- intros [[]|e] s0; [|constructor].
           apply settles_final. simpl. apply orb_true_r.
      * rewrite handleAuthFailure_other by assumption. constructor.
    + rewrite doAuthenticatedRequest_loggedOut by exact Hin. constructor.
Qed.

(** ** The freshness check *)

(** C3.  In a logged-in state the freshness check resolves at once, with
    no request and the state as it was, exactly when the access token
    decodes with an issuance time at or after the start of the request.
    When the token does not decode, or was issued before, the check is one
    refresh operation: one request to the session route with the refresh
    token, settled by whatever the transport answers. *)
Theorem freshness_check s (reqStartedAt : Z) :
  isLoggedIn s = true ->
  (issuedSince reqStartedAt s ->
   tryRefreshAccessToken reqStartedAt s = (s, Settled (Ok tt))) /\
  (~ issuedSince reqStartedAt s ->
   tryRefreshAccessToken reqStartedAt s = refreshAccessToken s /\
   exists k,
     refreshAccessToken s = (s, Pending (refreshRequest s) k) /\
     forall r s', exists res, snd (k r s') = Settled res).
Proof.
  intros Hin. unfold issuedSince, tryRefreshAccessToken, tryRefreshAccessToken_.
  rewrite Hin. simpl. split.
  - intros [jwt [Hjwt Hle]]. rewrite Hjwt.
    apply Z.geb_le in Hle. rewrite Hle. reflexivity.
  - intros Hstale. split.
    + destruct (JWT_fromEncoded H (accessToken (authInfo s))) as [jwt|];
        [|reflexivity].
      destruct (issuedAt jwt >=? reqStartedAt)%Z eqn:Hge; [|reflexivity].
      exfalso. apply Hstale. exists jwt. split; [reflexivity|].
      apply Z.geb_le. exact Hge.
    + destruct (refreshAccessToken_pending s Hin) as [k [Heq Hk]].
      exists k. split; [exact Heq|].
      intros r s'. rewrite Hk. destruct r as [response|ex].
      * destruct (ApiAuthInfo_fromJSON H (body response)); [|simpl; eauto].
        cbv zeta. destruct (tryWriteToStorage _ _) as [s2 ok]. simpl. eauto.
      * destruct (isInvalidSession ex); simpl; eauto.
Qed.

(** ** The retry bound *)

(** C1, as amended.  An authenticated request that may refresh and is
    answered with an invalid session runs the freshness check once and
    then, if the check succeeds, issues the request again with
    [shouldRefreshOnFailure] false.  The check dispatches at most one
    request (the refresh; none when the token is fresh or the session is
    gone), the retried request is never retried: answered with an invalid
    session it runs [clearAuth] and rejects, with that error or with the
    persistence error of [clearAuth].  No run dispatches more than three
    requests, and three answers settle the call. *)
Theorem retry_at_most_once s req ex :
  isLoggedIn s = true ->
  useRefreshToken req = false ->
  shouldRefreshOnFailure req = true ->
  isInvalidSession ex = true ->
  exists k,
    doAuthenticatedRequest req s = (s, Pending (authorized req s) k) /\
    (forall s1,
       k (Err ex) s1 =
       andThen (tryRefreshAccessToken (startedAt (request req)))
         (fun _ => doAuthenticatedRequest
                     (withShouldRefreshOnFailure false req)) s1) /\
    (forall s1,
       settlesWithin 1
         (snd (tryRefreshAccessToken (startedAt (request req)) s1))) /\
    (forall s2 ex2,
       isLoggedIn s2 = true ->
       isInvalidSession ex2 = true ->
       exists k2,
         doAuthenticatedRequest (withShouldRefreshOnFailure false req) s2 =
         (s2, Pending (authorized req s2) k2) /\
         forall s3,
           k2 (Err ex2) s3 =
           (fst (clearAuth s3),
            Settled (Err (match snd (clearAuth s3) with
                          | Ok _ => ex2
                          | Err e => e
                          end)))) /\
    (forall net, length (dispatched (snd (doAuthenticatedRequest req s)) net s) <= 3) /\
    (forall net, 3 <= length net ->
       exists s' r rest,
         runA (doAuthenticatedRequest req) net s = (s', Settled r, rest)).
Proof.
  intros Hin Hu Hr Hex.
  destruct (doAuthenticatedRequest_pending req s Hin) as [k [Heq Hk]].
  exists k. split; [exact Heq|]. split; [|split; [|split; [|split]]].
  - intros s1. rewrite Hk. apply handleAuthFailure_retry; assumption.
  - intros s1. apply settles_tryRefresh.
  - intros s2 ex2 Hin2 Hex2.
    destruct (doAuthenticatedRequest_pending
                (withShouldRefreshOnFailure false req) s2 Hin2)
      as [k2 [Heq2 Hk2]].
    exists k2. split; [exact Heq2|].
    intros s3. rewrite Hk2. apply handleAuthFailure_final; [exact Hex2|].
    simpl. apply orb_true_r.
  - intros net. apply settlesWithin_dispatched.
    apply settles_doAuthenticatedRequest.
  - intros net Hlen. unfold runA.
    pose proof (settles_doAuthenticatedRequest req s) as Hsettles.
    destruct (doAuthenticatedRequest req s) as [s0 p].
    apply (settlesWithin_run Hsettles). exact Hlen.
Qed.

(** ** The outcomes of a refresh *)

(** C5, as amended.  A refresh that cannot be sent, that the transport or
    the server fails with anything but an invalid session, or whose answer
    does not decode, leaves the state as it was.  A refresh answered with an
    invalid session runs [clearAuth].  A refresh whose answer decodes sets
    the auth info to the merge of the current one with the partial one and
    writes it to storage; when the write fails the merged info stays and
    the persistence error is reported. *)
Theorem refresh_outcomes s :
  (isLoggedIn s = false ->
   refreshAccessToken s =
   (s, Settled (Err (StitchClientError MustAuthenticateFirst)))) /\
  (isLoggedIn s = true ->
   exists k,
     refreshAccessToken s = (s, Pending (refreshRequest s) k) /\
     (forall ex s',
        isInvalidSession ex = false -> k (Err ex) s' = (s', Settled (Err ex))) /\
     (forall ex s',
        isInvalidSession ex = true ->
        fst (k (Err ex) s') = fst (clearAuth s')) /\
     (forall response err s',
        ApiAuthInfo_fromJSON H (body response) = Err err ->
        k (Ok response) s' =
        (s', Settled (Err (StitchRequestError err DECODING_ERROR)))) /\
     (forall response partialInfo s',
        ApiAuthInfo_fromJSON H (body response) = Ok partialInfo ->
        let merged := merge (authInfo s') partialInfo in
        let written := writeToStorage H merged (storage s') in
        authInfo (fst (k (Ok response) s')) = merged /\
        currentUser (fst (k (Ok response) s')) = currentUser s' /\
        storage (fst (k (Ok response) s')) = fst written /\
        (snd written = true ->
         snd (k (Ok response) s') = Settled (Ok tt) /\
         log (fst (k (Ok response) s')) = (log s' ++ [Persisted merged])%list) /\
        (snd written = false ->
         snd (k (Ok response) s') =
         Settled (Err (StitchClientError CouldNotPersistAuthInfo)) /\
         log (fst (k (Ok response) s')) = (log s' ++ [PersistFailed merged])%list))).
Proof.
  split; [apply refreshAccessToken_loggedOut|].
  intros Hin. destruct (refreshAccessToken_pending s Hin) as [k [Heq Hk]].
  exists k. split; [exact Heq|]. split; [|split; [|split]].
  - intros ex s' Hex. rewrite Hk, Hex. reflexivity.
  - intros ex s' Hex. rewrite Hk, Hex. reflexivity.
  - intros response err s' Hdec. rewrite Hk, Hdec. reflexivity.
  - intros response partialInfo s' Hdec. rewrite Hk, Hdec.
    unfold tryWriteToStorage. simpl.
    destruct (writeToStorage H (merge (authInfo s') partialInfo) (storage s'))
      as [st []]; simpl; repeat split; intros; try discriminate; reflexivity.
Qed.

(** ** Logout *)

Lemma clearAuth_done s s' :
  clearAuth s = (s', Ok tt) -> isLoggedIn s' = false.
Proof.
  unfold clearAuth. destruct (isLoggedIn s) eqn:Hin; simpl.
  - destruct (tryWriteToStorage _ _) as [s2 []]; intros Heq;
      inversion Heq; reflexivity.
  - intros Heq. inversion Heq; subst. exact Hin.
Qed.

(** What the answer to the logout request leads to: [clearAuth], run again
    when the first call was made by a [then] callback or by the failure
    handler. *)
Lemma logoutInternal_pending s :
  isLoggedIn s = true ->
  exists k,
    logoutInternal s = (s, Pending (logoutRequest s) k) /\
    forall r s',
      k r s' =
      match r with
      | Ok _ => sync (@clearAuth H) (fst (clearAuth s'))
      | Err ex =>
          if isInvalidSession ex
          then sync (@clearAuth H) (fst (clearAuth s'))
          else sync (@clearAuth H) s'
      end.
Proof.
  intros Hin. unfold logoutInternal. rewrite Hin. simpl.
  unfold orCatch, andThen, doLogout, andThen, chain.
  destruct (doAuthenticatedRequest_pending
              (newAuthRequest DELETE (sessionRoute (authRoutes H)) true s)
              s Hin) as [k0 [Heq Hk0]].
  rewrite Heq. simpl. eexists. split; [reflexivity|].
  intros r s'. cbv beta. rewrite Hk0. destruct r as [response|ex].
  - simpl. unfold sync at 1.
    destruct (clearAuth s') as [s2 [[]|e]] eqn:Hc; simpl.
    + unfold resolve, sync.
      rewrite clearAuth_loggedOut by (eapply clearAuth_done; exact Hc).
      reflexivity.
    + reflexivity.
  - destruct (isInvalidSession ex) eqn:Hex.
    + rewrite handleAuthFailure_final by (exact Hex || reflexivity).
      reflexivity.
    + rewrite handleAuthFailure_other by exact Hex. reflexivity.
Qed.

(** The two ways a logout ends.  From a logged-in state [logoutInternal]
    dispatches the session delete
    with the refresh token, and whatever the transport answers,
    success or any failure, the promise settles in one of two ways:
    resolved, with the auth info in its logged-out form, no current user,
    and that form written to storage; or rejected with the persistence
    error, after a write of the logged-out form failed.  When the storage
    accepts the write it is the first. *)
Theorem logout_clears_whatever_the_answer s (r : Result Response) :
  isLoggedIn s = true ->
  exists k,
    logoutInternal s = (s, Pending (logoutRequest s) k) /\
    let s' := fst (k r s) in
    let cleared := loggedOut (authInfo s) in
    ((snd (k r s) = Settled (Ok tt) /\
      authInfo s' = cleared /\ currentUser s' = None /\
      exists l, log s' = (log s ++ l ++ [Persisted cleared; AuthEvent])%list)
     \/
     (snd (k r s) = Settled (Err (StitchClientError CouldNotPersistAuthInfo)) /\
      exists l, log s' = (log s ++ l ++ [PersistFailed cleared])%list)) /\
    (snd (writeToStorage H cleared (storage s)) = true ->
     snd (k r s) = Settled (Ok tt) /\
     storage s' = fst (writeToStorage H cleared (storage s))).
Proof.
  intros Hin. destruct (logoutInternal_pending s Hin) as [k [Heq Hk]].
  exists k. split; [exact Heq|]. cbv zeta. rewrite Hk.
  destruct (writeToStorage H (loggedOut (authInfo s)) (storage s))
    as [st ok] eqn:Hw.
  destruct ok.
  - (* the first write succeeds *)
    pose proof (clearAuth_persisted s st Hin Hw) as Hc.
    assert (Hout : isLoggedIn (fst (clearAuth s)) = false)
      by (rewrite Hc; reflexivity).
    assert (Hall : sync (@clearAuth H) (fst (clearAuth s)) =
                   (fst (clearAuth s), Settled (Ok tt)))
      by (unfold sync; rewrite (clearAuth_loggedOut _ Hout); reflexivity).
    assert (Hone : sync (@clearAuth H) s = (fst (clearAuth s), Settled (Ok tt)))
      by (unfold sync; rewrite Hc; reflexivity).
    assert (Hres : match r with
                   | Ok _ => sync (@clearAuth H) (fst (clearAuth s))
                   | Err ex => if isInvalidSession ex
                               then sync (@clearAuth H) (fst (clearAuth s))
                               else sync (@clearAuth H) s
                   end = (fst (clearAuth s), Settled (Ok tt))).
    { destruct r as [response|ex]; [exact Hall|].
      destruct (isInvalidSession ex); assumption. }
    rewrite Hres, Hc. simpl. split.
    + left. repeat split. exists []. reflexivity.
    + intros _. split; reflexivity.
  - (* the first write fails *)
    pose proof (clearAuth_failed s st Hin Hw) as Hc.
    split; [|simpl; discriminate].
    assert (Hone : sync (@clearAuth H) s =
                   (fst (clearAuth s),
                    Settled (Err (StitchClientError CouldNotPersistAuthInfo))))
      by (unfold sync; rewrite Hc; reflexivity).
    set (s1 := fst (clearAuth s)) in *.
    assert (Hin1 : isLoggedIn s1 = true)
      by (unfold s1; rewrite Hc; exact Hin).
    assert (Hinfo1 : authInfo s1 = loggedOut (authInfo s))
      by (unfold s1; rewrite Hc; reflexivity).
    assert (Hlog1 : log s1 = (log s ++ [PersistFailed (loggedOut (authInfo s))])%list)
      by (unfold s1; rewrite Hc; reflexivity).
    assert (Htwice :
      (snd (sync (@clearAuth H) s1) = Settled (Ok tt) /\
       authInfo (fst (sync (@clearAuth H) s1)) = loggedOut (authInfo s) /\
       currentUser (fst (sync (@clearAuth H) s1)) = None /\
       exists l, log (fst (sync (@clearAuth H) s1)) =
                 (log s ++ l ++ [Persisted (loggedOut (authInfo s)); AuthEvent])%list)
      \/
      (snd (sync (@clearAuth H) s1) =
       Settled (Err (StitchClientError CouldNotPersistAuthInfo)) /\
       exists l, log (fst (sync (@clearAuth H) s1)) =
                 (log s ++ l ++ [PersistFailed (loggedOut (authInfo s))])%list)).
    { destruct (writeToStorage H (loggedOut (authInfo s1)) (storage s1))
        as [st2 ok2] eqn:Hw2.
      unfold sync. destruct ok2.
      - rewrite (clearAuth_persisted s1 st2 Hin1 Hw2). simpl.
        rewrite Hinfo1, Hlog1. left. repeat split.
        exists [PersistFailed (loggedOut (authInfo s))].
        rewrite <- app_assoc. reflexivity.
      - rewrite (clearAuth_failed s1 st2 Hin1 Hw2). simpl.
        rewrite Hinfo1, Hlog1. right. split; [reflexivity|].
        exists [PersistFailed (loggedOut (authInfo s))].
        rewrite <- app_assoc. reflexivity. }
    assert (Honce :
      snd (sync (@clearAuth H) s) =
      Settled (Err (StitchClientError CouldNotPersistAuthInfo)) /\
      exists l, log (fst (sync (@clearAuth H) s)) =
                (log s ++ l ++ [PersistFailed (loggedOut (authInfo s))])%list).
    { rewrite Hone. simpl. split; [reflexivity|]. exists []. exact Hlog1. }
    destruct r as [response|ex]; [exact Htwice|].
    destruct (isInvalidSession ex); [exact Htwice|right; exact Honce].
Qed.

(** C8.  From a logged-out state [logoutInternal] resolves at once: the
    promise is settled, so nothing is dispatched, and the state (storage
    and log of writes included) is the one it was called on.  Hence a
    second logout after one that completed changes nothing. *)
Theorem logout_idempotent s :
  (isLoggedIn s = false ->
   logoutInternal s = (s, Settled (Ok tt)) /\
   forall net, dispatched (snd (logoutInternal s)) net s = []) /\
  (forall net s1 rest,
     runA (@logoutInternal H) net s = (s1, Settled (Ok tt), rest) ->
     logoutInternal s1 = (s1, Settled (Ok tt)) /\
     runA (@logoutInternal H) rest s1 = (s1, Settled (Ok tt), rest)).
Proof.
  assert (Hnoop : forall s0, isLoggedIn s0 = false ->
                             logoutInternal s0 = (s0, Settled (Ok tt))).
  { intros s0 Hout. unfold logoutInternal. rewrite Hout. reflexivity. }
  split.
  - intros Hout. rewrite (Hnoop s Hout). split; reflexivity.
  - intros net s1 rest Hrun.
    assert (Hout1 : isLoggedIn s1 = false).
    { unfold runA in Hrun. destruct (isLoggedIn s) eqn:Hin.
      - destruct (logoutInternal_pending s Hin) as [k [Heq Hk]].
        rewrite Heq in Hrun. simpl in Hrun.
        destruct net as [|r net]; [discriminate|].
        rewrite Hk in Hrun.
        assert (Hsync : forall s0 s2 p,
                  sync (@clearAuth H) s0 = (s2, p) ->
                  run p net s2 = (s1, Settled (Ok tt), rest) ->
                  isLoggedIn s1 = false).
        { intros s0 s2 p Hs Hr. unfold sync in Hs.
          destruct (clearAuth s0) as [s3 res] eqn:Hc.
          inversion Hs; subst. simpl in Hr. inversion Hr; subst.
          eapply clearAuth_done. exact Hc. }
        destruct r as [response|ex].
        + destruct (sync (@clearAuth H) (fst (clearAuth s))) as [s2 p] eqn:Hs.
          eapply Hsync; eassumption.
        + destruct (isInvalidSession ex).
          * destruct (sync (@clearAuth H) (fst (clearAuth s))) as [s2 p] eqn:Hs.
            eapply Hsync; eassumption.
          * destruct (sync (@clearAuth H) s) as [s2 p] eqn:Hs.
            eapply Hsync; eassumption.
      - rewrite (Hnoop s Hin) in Hrun. simpl in Hrun.
        inversion Hrun; subst. exact Hin. }
    split; [apply Hnoop; exact Hout1|].
    unfold runA. rewrite (Hnoop s1 Hout1). reflexivity.
Qed.

(** ** Link *)

Lemma optString_eqb_eq (a b : option string) :
  optString_eqb a b = true <-> a = b.
Proof.
  destruct a as [x|], b as [y|]; simpl; split; intros Heq;
    try discriminate; try reflexivity.
  - apply String.eqb_eq in Heq. subst. reflexivity.
  - inversion Heq; subst. apply String.eqb_refl.
Qed.


(** ** The commit protocol *)

Lemma processLogin_unfold (credential : StitchCredential) (info : AuthInfo)
  (asLinkRequest : bool) s :
  exists commit,
    processLogin credential info asLinkRequest s =
    orCatch (andThen (@doGetUserProfile H) commit)
      (fun err s2 =>
         if asLinkRequest then
           reject err (setCurrentUser (currentUser s)
                         (setAuthInfo (authInfo s) s2))
         else
           let (s3, r) := clearAuth s2 in
           match r with
           | Ok _ => reject err s3
           | Err e => reject e s3
           end)
      (provisional credential info s).
Proof.
  eexists. reflexivity.
Qed.

(** C4, as amended.  When the profile request of [processLogin] fails with
    [e], in a state [s2]: a link puts back the auth info and the current
    user that [processLogin] was called on and rejects with [e]; a login
    runs [clearAuth] on [s2] and rejects with [e], or with the persistence
    error when [clearAuth] throws it.  So a login whose state can be
    persisted ends with the logged-out form of the auth info and no current
    user. *)
Theorem profile_failure s (credential : StitchCredential) (info : AuthInfo)
  (asLinkRequest : bool) (net rest : list (Result Response))
  (s2 : CoreStitchAuth H) (e : Error) :
  runA (@doGetUserProfile H) net (provisional credential info s) =
  (s2, Settled (Err e), rest) ->
  let out := runA (processLogin credential info asLinkRequest) net s in
  (asLinkRequest = true ->
   out = (setCurrentUser (currentUser s) (setAuthInfo (authInfo s) s2),
          Settled (Err e), rest) /\
   authInfo (fst (fst out)) = authInfo s /\
   currentUser (fst (fst out)) = currentUser s) /\
  (asLinkRequest = false ->
   out = (fst (clearAuth s2),
          Settled (Err (match snd (clearAuth s2) with
                        | Ok _ => e
                        | Err e' => e'
                        end)), rest) /\
   (isLoggedIn s2 = false -> out = (s2, Settled (Err e), rest)) /\
   (isLoggedIn s2 = true ->
    snd (writeToStorage H (loggedOut (authInfo s2)) (storage s2)) = true ->
    snd (fst out) = Settled (Err e) /\
    authInfo (fst (fst out)) = loggedOut (authInfo s2) /\
    currentUser (fst (fst out)) = None)).
Proof.
  intros Hprofile out.
  destruct (processLogin_unfold credential info asLinkRequest s)
    as [commit Hunfold].
  assert (Hout : out =
    runA (fun s2 =>
            if asLinkRequest then
              reject e (setCurrentUser (currentUser s)
                          (setAuthInfo (authInfo s) s2))
            else
              let (s3, r) := clearAuth s2 in
              match r with
              | Ok _ => reject e s3
              | Err e' => reject e' s3
              end) rest s2).
  { unfold out, runA at 1. rewrite Hunfold.
    unfold orCatch, andThen.
    pose proof (@runA_chain _ _ _ _
                  (fun r => match r with
                            | Ok a => commit a
                            | Err e0 => reject e0
                            end) _ _ _ _ _ Hprofile) as Hthen.
    change (runA (fun r => reject e r) rest s2)
      with (s2, @Settled (CoreStitchAuth H) (TStitchUser H) (Err e), rest)
      in Hthen.
    pose proof (@runA_chain _ _ _ _
                  (fun r => match r with
                            | Ok a => resolve a
                            | Err e0 =>
                                fun s2 =>
                                  if asLinkRequest then
                                    reject e0
                                      (setCurrentUser (currentUser s)
                                         (setAuthInfo (authInfo s) s2))
                                  else
                                    let (s3, r) := clearAuth s2 in
                                    match r with
                                    | Ok _ => reject e0 s3
                                    | Err e' => reject e' s3
                                    end
                            end) _ _ _ _ _ Hthen) as Hcatch.
    unfold runA at 1 in Hcatch.
    destruct (chain _ _ (provisional credential info s)) as [s1 p].
    exact Hcatch. }
  split.
  - intros Hlink. subst asLinkRequest. rewrite Hout.
    split; [reflexivity|]. split; reflexivity.
  - intros Hlogin. subst asLinkRequest. rewrite Hout.
    unfold runA.
    split; [|split].
    + destruct (clearAuth s2) as [s3 [[]|e']]; reflexivity.
    + intros Hloggedout. rewrite (clearAuth_loggedOut s2 Hloggedout).
      reflexivity.
    + intros Hin Hw.
      destruct (writeToStorage H (loggedOut (authInfo s2)) (storage s2))
        as [st ok] eqn:Hw2. simpl in Hw. subst ok.
      rewrite (clearAuth_persisted s2 st Hin Hw2). simpl.
      repeat split.
Qed.

(** ** The device id *)

(** C10.  [hasDeviceId] holds exactly when the stored device id is defined,
    is not the empty string and is not the string of twenty-four zeros; the
    [deviceId] accessor returns the stored id when [hasDeviceId] holds and
    nothing otherwise, so a stored all-zeros id is not reported. *)
Theorem hasDeviceId_spec s :
  (hasDeviceId s = true <->
   exists d, deviceId (authInfo s) = Some d /\ d <> "" /\
             d <> "000000000000000000000000") /\
  getDeviceId s = (if hasDeviceId s then deviceId (authInfo s) else None) /\
  (deviceId (authInfo s) = Some "000000000000000000000000" ->
   hasDeviceId s = false /\ getDeviceId s = None).
Proof.
  unfold getDeviceId, hasDeviceId. split; [|split].
  - destruct (deviceId (authInfo s)) as [d|].
    + split.
      * intros Hb. apply andb_true_iff in Hb. destruct Hb as [He Hz].
        apply negb_true_iff in He, Hz. apply String.eqb_neq in He, Hz.
        exists d. auto.
      * intros [d' [Hd [He Hz]]]. inversion Hd; subst d'.
        apply andb_true_iff. split; apply negb_true_iff;
          apply String.eqb_neq; assumption.
    + split; [discriminate|]. intros [d [Hd _]]. discriminate.
  - destruct (deviceId (authInfo s)) as [d|]; [|reflexivity].
    destruct (negb (d =? "") && negb (d =? "000000000000000000000000"))%string;
      reflexivity.
  - intros Hz. rewrite Hz. split; reflexivity.
Qed.

(** ** Reusing the session *)

(** The part of [loginWithCredentialInternal] that needs no request: a
    credential that reuses the session of its own provider type returns
    the current user; nothing is dispatched and the state stays. *)
Lemma login_reuses_session s (u : TStitchUser H) (credential : StitchCredential) :
  authResponse credential = None ->
  currentUser s = Some u ->
  reusesExistingSession (providerCapabilities credential) = true ->
  userLoggedInProviderType H u = Some (providerType credential) ->
  loginWithCredentialInternal credential s =
  {| stateAfterCall := s; returned := Settled (Ok u); dropped := None |}.
Proof.
  intros Hresp Hcu Hreuse Htype. unfold loginWithCredentialInternal.
  rewrite Hresp, Hcu, Hreuse, Htype. simpl.
  rewrite String.eqb_refl. reflexivity.
Qed.

End Facts.

(** * The properties on the concrete host *)

Import Demo.

(** ** C1: a fresh token is not refreshed *)

(** C1 says that every such request performs exactly one refresh.  Here the
    request started at 50 and the token was issued at 100: the request is
    answered with an invalid session, the freshness check resolves at once,
    and the only requests dispatched are the original one and its retry,
    neither of them the refresh request; the state is untouched. *)
Lemma fresh_token_retries_without_refresh :
  let s := loggedIn 5 in
  let req := appRequest 50 in
  let net := [Err invalidSession; answer "data"] in
  isLoggedIn s = true /\
  useRefreshToken req = false /\
  shouldRefreshOnFailure req = true /\
  isInvalidSession invalidSession = true /\
  dispatched (snd (doAuthenticatedRequest req s)) net s =
  [authorized req s; authorized req s] /\
  ~ In (refreshRequest s) (dispatched (snd (doAuthenticatedRequest req s)) net s) /\
  runA (doAuthenticatedRequest req) net s =
  (s, Settled (Ok {| statusCode := 200; body := Some "data" |}), []).
Proof.
  cbv zeta. repeat split; try reflexivity.
  intros Hin.
  change (dispatched (snd (doAuthenticatedRequest (appRequest 50) (loggedIn 5)))
            [Err invalidSession; answer "data"] (loggedIn 5))
    with [authorized (appRequest 50) (loggedIn 5);
          authorized (appRequest 50) (loggedIn 5)] in Hin.
  destruct Hin as [Heq|[Heq|[]]]; discriminate Heq.
Qed.

Lemma retry_at_most_once_witness :
  isLoggedIn (loggedIn 5) = true /\
  useRefreshToken (appRequest 150) = false /\
  shouldRefreshOnFailure (appRequest 150) = true /\
  isInvalidSession invalidSession = true /\
  forall net,
    length (dispatched (snd (doAuthenticatedRequest (appRequest 150) (loggedIn 5)))
              net (loggedIn 5)) <= 3.
Proof.
  repeat split; try reflexivity.
  destruct (retry_at_most_once host (loggedIn 5) (appRequest 150) invalidSession
              eq_refl eq_refl eq_refl eq_refl) as [k [_ [_ [_ [_ [Hbound _]]]]]].
  exact Hbound.
Defined.

(** ** C3 *)

Lemma freshness_check_witness :
  isLoggedIn (loggedIn 5) = true /\
  tryRefreshAccessToken 50 (loggedIn 5) = (loggedIn 5, Settled (Ok tt)) /\
  tryRefreshAccessToken 150 (loggedIn 5) = refreshAccessToken (loggedIn 5).
Proof.
  split; [reflexivity|]. split.
  - apply (proj1 (freshness_check host (loggedIn 5) 50 eq_refl)).
    exists {| expires := 1000; issuedAt := 100 |}. split; [reflexivity|].
    simpl. lia.
  - apply (proj2 (freshness_check host (loggedIn 5) 150 eq_refl)).
    intros [jwt [Hjwt Hle]]. simpl in Hjwt. inversion Hjwt; subst jwt.
    simpl in Hle. lia.
Defined.

(** ** C4: a login whose cleared state cannot be persisted *)

(** C4 says that a failed profile request of a login clears the
    authentication state and that the error of the profile request reaches
    the caller.  Here the storage refuses the write of [clearAuth]: the
    caller receives the persistence error, and the provisional user stays. *)
Lemma login_rollback_may_fail_to_persist :
  let s := loggedOutState 0 in
  let net := [Err transportError] in
  runA (@doGetUserProfile host) net (provisional apiKey info2 s) =
  (provisional apiKey info2 s, Settled (Err transportError), []) /\
  snd (fst (runA (processLogin apiKey info2 false) net s)) =
  Settled (Err (StitchClientError CouldNotPersistAuthInfo)) /\
  isLoggedIn (fst (fst (runA (processLogin apiKey info2 false) net s))) = true.
Proof.
  cbv zeta. repeat split; reflexivity.
Qed.

Lemma profile_failure_witness :
  let s := loggedIn 5 in
  let net := [Err transportError] in
  runA (@doGetUserProfile host) net (provisional apiKey info2 s) =
  (provisional apiKey info2 s, Settled (Err transportError), []) /\
  authInfo (fst (fst (runA (processLogin apiKey info2 true) net s))) = info1 /\
  currentUser (fst (fst (runA (processLogin apiKey info2 true) net s))) =
  Some user1.
Proof.
  cbv zeta. split; [reflexivity|].
  destruct (profile_failure host (loggedIn 5) apiKey info2 true
              [Err transportError] [] (provisional apiKey info2 (loggedIn 5))
              transportError eq_refl) as [Hlink _].
  destruct (Hlink eq_refl) as [_ [Hinfo Huser]].
  split; [exact Hinfo|exact Huser].
Defined.

(** ** C5: a refresh answered with an invalid session *)

(** C5 says that every refresh that fails leaves the state in memory
    untouched.  Here the refresh request is answered with an invalid
    session, and the failure handler logs the user out. *)
Lemma failed_refresh_may_clear_auth :
  let s := loggedIn 5 in
  let out := runA (@refreshAccessToken host) [Err invalidSession] s in
  snd (fst out) = Settled (Err invalidSession) /\
  authInfo (fst (fst out)) = loggedOut info1 /\
  currentUser (fst (fst out)) = None /\
  authInfo (fst (fst out)) <> authInfo s.
Proof.
  cbv zeta. repeat split; try reflexivity.
  intros Heq. discriminate Heq.
Qed.

Lemma refresh_outcomes_witness :
  isLoggedIn (loggedIn 5) = true /\
  exists k,
    refreshAccessToken (loggedIn 5) =
    (loggedIn 5, Pending (refreshRequest (loggedIn 5)) k) /\
    accessToken (authInfo (fst (k (answer "refreshed") (loggedIn 5)))) =
    Some "a2" /\
    k (Err transportError) (loggedIn 5) =
    (loggedIn 5, Settled (Err transportError)).
Proof.
  split; [reflexivity|].
  destruct (proj2 (refresh_outcomes host (loggedIn 5)) eq_refl)
    as [k [Heq [Hother [_ [_ Hmerge]]]]].
  exists k. split; [exact Heq|]. split.
  - destruct (Hmerge {| statusCode := 200; body := Some "refreshed" |}
                (partialInfo None None (Some "a2") None) (loggedIn 5) eq_refl)
      as [Hinfo _].
    unfold answer. rewrite Hinfo. reflexivity.
  - apply Hother. reflexivity.
Defined.

(** ** C6, C7, C8 *)

Lemma logout_clears_witness :
  isLoggedIn (loggedIn 5) = true /\
  exists k,
    logoutInternal (loggedIn 5) =
    (loggedIn 5, Pending (logoutRequest (loggedIn 5)) k) /\
    snd (k (Err transportError) (loggedIn 5)) = Settled (Ok tt) /\
    stored (storage (fst (k (Err transportError) (loggedIn 5)))) =
    Some (loggedOut info1).
Proof.
  split; [reflexivity|].
  destruct (logout_clears_whatever_the_answer host (loggedIn 5)
              (Err transportError) eq_refl) as [k [Heq [_ Hpersist]]].
  exists k. split; [exact Heq|].
  destruct (Hpersist eq_refl) as [Hok Hst].
  split; [exact Hok|]. rewrite Hst. reflexivity.
Defined.


Lemma logout_idempotent_witness :
  isLoggedIn (loggedOutState 5) = false /\
  logoutInternal (loggedOutState 5) = (loggedOutState 5, Settled (Ok tt)) /\
  (let s1 := fst (fst (runA (@logoutInternal host) [answer ""] (loggedIn 5))) in
   logoutInternal s1 = (s1, Settled (Ok tt))).
Proof.
  split; [reflexivity|]. split.
  - apply (proj1 (logout_idempotent host (loggedOutState 5))). reflexivity.
  - cbv zeta.
    apply (proj2 (logout_idempotent host (loggedIn 5)) [answer ""] _ []).
    reflexivity.
Defined.

(** ** C6: a logout whose cleared state cannot be persisted *)

(** C6.  The user [u1] is logged in and the storage refuses every write.
    The session delete succeeds; [clearAuth] is run by the [then] callback
    and, when that throws, again by the [catch] callback, and throws again.
    The logout is rejected with the persistence error, and the local state
    is not cleared: the current user is still set and [isLoggedIn] holds,
    with the auth info in its logged-out form, while the storage still holds
    the tokens of [u1].  The same happens when the session delete fails. *)
Theorem logout_keeps_the_user_when_persist_fails :
  let s := loggedIn 0 in
  let out := runA (@logoutInternal host) [answer ""] s in
  let failed := runA (@logoutInternal host) [Err transportError] s in
  isLoggedIn s = true /\
  dispatched (snd (logoutInternal s)) [answer ""] s = [logoutRequest s] /\
  snd (fst out) = Settled (Err (StitchClientError CouldNotPersistAuthInfo)) /\
  currentUser (fst (fst out)) = Some user1 /\
  isLoggedIn (fst (fst out)) = true /\
  authInfo (fst (fst out)) = loggedOut info1 /\
  stored (storage (fst (fst out))) = Some info1 /\
  log (fst (fst out)) =
  [PersistFailed (loggedOut info1); PersistFailed (loggedOut info1)] /\
  snd (fst failed) = Settled (Err (StitchClientError CouldNotPersistAuthInfo)) /\
  isLoggedIn (fst (fst failed)) = true.
Proof.
  cbv zeta. repeat split; reflexivity.
Qed.

(** ** C2: a failed write in [clearAuth] *)

(** C2.  The user [u1] is logged in and the storage refuses every write.
    The logout request fails in the transport, [clearAuth] replaces the auth
    info by its logged-out form and throws before it clears the current
    user: the call ends with the persistence error in a state where
    [isLoggedIn] holds and the current user is defined while
    [authInfo.userId] is undefined. *)
Theorem failed_persist_breaks_the_invariant :
  let s := loggedIn 0 in
  let out := runA (@logoutInternal host) [Err transportError] s in
  (isLoggedIn s = true /\ userId (authInfo s) = Some "u1" /\
   currentUser s = Some user1) /\
  snd (fst out) = Settled (Err (StitchClientError CouldNotPersistAuthInfo)) /\
  isLoggedIn (fst (fst out)) = true /\
  currentUser (fst (fst out)) = Some user1 /\
  userId (authInfo (fst (fst out))) = None /\
  accessToken (authInfo (fst (fst out))) = None.
Proof.
  cbv zeta. repeat split; reflexivity.
Qed.

(** ** C9: the logout that is started and dropped *)

(** C9.  The user [u1] is logged in anonymously and logs in with an API key.
    The call dispatches the session delete and, without waiting for its
    answer, the login; when it returns the state is still that of [u1].
    The transport answers the login and the profile request first: the
    returned promise resolves with [u2], who is logged in.  Then it answers
    the session delete: the dropped promise runs [clearAuth], and the state
    is logged out, in memory and in storage. *)
Theorem dropped_logout_clears_the_new_session :
  let call := loginWithCredentialInternal apiKey (loggedIn 5) in
  stateAfterCall call = loggedIn 5 /\
  match dropped call, returned call with
  | Some (Pending logoutReq _ as pLogout), Pending loginReq _ =>
      logoutReq = logoutRequest (loggedIn 5) /\
      path loginReq = "/auth/providers/api-key/login" /\
      let (s1, p1) := deliver (returned call) (answer "login-u2")
                        (stateAfterCall call) in
      let (s2, p2) := deliver p1 (answer "profile") s1 in
      let (s3, p3) := deliver pLogout (answer "") s2 in
      p2 = Settled (Ok user2) /\
      currentUser s2 = Some user2 /\
      userId (authInfo s2) = Some "u2" /\
      p3 = Settled (Ok tt) /\
      currentUser s3 = None /\
      authInfo s3 = loggedOut (authInfo s2) /\
      stored (storage s3) = Some (loggedOut (authInfo s2))
  | _, _ => False
  end.
Proof.
  cbv zeta. split; [reflexivity|].
  vm_compute. repeat split; reflexivity.
Qed.

(** ** The end-to-end scenarios of the specification *)

(** Scenario A: empty storage, then a login that the server answers with the
    auth info of [u2] and a profile: the user is [u2], the storage holds the
    committed auth info, and the owner is notified once. *)
Example scenario_login :
  construct host {| stored := None; writesLeft := 5 |} 200 =
  Ok (loggedOutState 5) /\
  let call := loginWithCredentialInternal apiKey (loggedOutState 5) in
  let out := run (returned call) [answer "login-u2"; answer "profile"]
               (stateAfterCall call) in
  dropped call = None /\
  snd (fst out) = Settled (Ok user2) /\
  userId (authInfo (fst (fst out))) = Some "u2" /\
  stored (storage (fst (fst out))) = Some (authInfo (fst (fst out))) /\
  log (fst (fst out)) = [Persisted (authInfo (fst (fst out))); AuthEvent].
Proof.
  cbv zeta. repeat split; reflexivity.
Qed.

(** Scenario B: an authenticated call answered with an invalid session, a
    refresh answered with the access token [a2], and the retried call
    answered: three requests, the last with the new token. *)
Example scenario_refresh_and_retry :
  let s := loggedIn 5 in
  let req := appRequest 150 in
  let net := [Err invalidSession; answer "refreshed"; answer "data"] in
  let out := runA (doAuthenticatedRequest req) net s in
  snd (fst out) = Settled (Ok {| statusCode := 200; body := Some "data" |}) /\
  accessToken (authInfo (fst (fst out))) = Some "a2" /\
  map (fun r => (method r, path r, getKey AUTHORIZATION (headers r)))
    (dispatched (snd (doAuthenticatedRequest req s)) net s) =
  [(GET, "/app/data", Some "Bearer a1");
   (POST, "/auth/session", Some "Bearer r1");
   (GET, "/app/data", Some "Bearer a2")].
Proof.
  cbv zeta. repeat split; reflexivity.
Qed.

(** * Further properties *)

(** ** Objects used as dictionaries *)

Section Dictionaries.

Variable V : Type.

Lemma getKey_setKey_same (key : string) (value : V) (obj : list (string * V)) :
  getKey key (setKey key value obj) = Some value.
Proof.
  induction obj as [|[k v] rest IH]; simpl.
  - rewrite String.eqb_refl. reflexivity.
  - destruct (String.eqb k key) eqn:Hk; simpl; rewrite Hk; [reflexivity|exact IH].
Qed.

Lemma getKey_setKey_other (key other : string) (value : V)
  (obj : list (string * V)) :
  other <> key ->
  getKey other (setKey key value obj) = getKey other obj.
Proof.
  intros Hne. induction obj as [|[k v] rest IH]; simpl.
  - destruct (String.eqb key other) eqn:Hk; [|reflexivity].
    apply String.eqb_eq in Hk. congruence.
  - destruct (String.eqb k key) eqn:Hk; simpl.
    + apply String.eqb_eq in Hk. subst k.
      destruct (String.eqb key other) eqn:Hko; [|reflexivity].
      apply String.eqb_eq in Hko. congruence.
    + rewrite IH. reflexivity.
Qed.

Lemma setKey_setKey (key : string) (v1 v2 : V) (obj : list (string * V)) :
  setKey key v2 (setKey key v1 obj) = setKey key v2 obj.
Proof.
  induction obj as [|[k v] rest IH]; simpl.
  - rewrite String.eqb_refl. reflexivity.
  - destruct (String.eqb k key) eqn:Hk; simpl; rewrite Hk; [reflexivity|].
    rewrite IH. reflexivity.
Qed.

End Dictionaries.

(** ** Calls run alone *)

Section AloneFacts.

Variable St : Type.

Lemma alone_chainP {A B : Type} (Q1 : St -> Result A -> Prop)
  (Q2 : St -> Result B -> Prop) (k : Result A -> Async St B)
  (s : St) (p : Promise St A) :
  alone Q1 s p ->
  (forall r s0, Q1 s0 r -> alone Q2 (fst (k r s0)) (snd (k r s0))) ->
  alone Q2 (fst (chainP p k s)) (snd (chainP p k s)).
Proof.
  intros Hp Hk. induction Hp as [s r Hq|s req c _ IH]; simpl.
  - apply Hk. exact Hq.
  - constructor. intros r. specialize (IH r).
    destruct (c r s) as [s'' p']. exact IH.
Qed.

Lemma alone_chain {A B : Type} (Q1 : St -> Result A -> Prop)
  (Q2 : St -> Result B -> Prop) (m : Async St A) (k : Result A -> Async St B)
  (s : St) :
  alone Q1 (fst (m s)) (snd (m s)) ->
  (forall r s0, Q1 s0 r -> alone Q2 (fst (k r s0)) (snd (k r s0))) ->
  alone Q2 (fst (chain m k s)) (snd (chain m k s)).
Proof.
  intros Hm Hk. unfold chain. destruct (m s) as [s1 p].
  apply alone_chainP with (Q1 := Q1); assumption.
Qed.

(** What [alone] promises is what [run] delivers. *)
Lemma alone_run {A : Type} (Q : St -> Result A -> Prop) (s : St)
  (p : Promise St A) :
  alone Q s p ->
  forall net s' r rest, run p net s = (s', Settled r, rest) -> Q s' r.
Proof.
  induction 1 as [s r0 Hq|s req k _ IH]; intros net s' r rest Hrun;
    simpl in Hrun.
  - inversion Hrun; subst. exact Hq.
  - destruct net as [|a net]; [discriminate|].
    specialize (IH a net s' r rest).
    destruct (k a s) as [s1 p1]. apply IH. exact Hrun.
Qed.

Lemma alone_runA {A : Type} (Q : St -> Result A -> Prop) (m : Async St A)
  (s : St) :
  alone Q (fst (m s)) (snd (m s)) ->
  forall net s' r rest, runA m net s = (s', Settled r, rest) -> Q s' r.
Proof.
  intros Hm net s' r rest Hrun. unfold runA in Hrun.
  destruct (m s) as [s1 p]. exact (alone_run Q s1 p Hm net s' r rest Hrun).
Qed.

End AloneFacts.

(** ** The invariant of the session *)

Section Coherence.

Variable H : Host.

Implicit Types (s : CoreStitchAuth H) (req : StitchAuthRequest) (ex : Error).

Lemma coherent_loggedIn s :
  coherent s -> isLoggedIn s = true -> userId (authInfo s) <> None.
Proof.
  intros Hc Hin. apply Hc. exact Hin.
Qed.

(** What [clearAuth] leaves when it is called by a failure handler. *)
Lemma clearAuth_endsCoherent (A : Type) s ex :
  isLoggedIn s = true \/ coherent s ->
  @endsCoherent H A (fst (clearAuth s))
    (Err (match snd (clearAuth s) with
          | Ok _ => ex
          | Err e => e
          end)).
Proof.
  intros Hs. destruct (isLoggedIn s) eqn:Hin.
  - destruct (writeToStorage H (loggedOut (authInfo s)) (storage s))
      as [st ok] eqn:Hw.
    destruct ok.
    + rewrite (clearAuth_persisted H s st Hin Hw). simpl. right.
      unfold coherent, isLoggedIn. simpl. split; [discriminate|congruence].
    + rewrite (clearAuth_failed H s st Hin Hw). simpl. left.
      split; [reflexivity|exact Hin].
  - rewrite (clearAuth_loggedOut H s Hin). simpl. right.
    destruct Hs as [Hs|Hs]; [discriminate|exact Hs].
Qed.

Lemma final_request_coherent req s :
  coherent s ->
  useRefreshToken req || negb (shouldRefreshOnFailure req) = true ->
  alone (@endsCoherent H Response)
    (fst (doAuthenticatedRequest req s)) (snd (doAuthenticatedRequest req s)).
Proof.
  intros Hc Hfinal. destruct (isLoggedIn s) eqn:Hin.
  - destruct (doAuthenticatedRequest_pending H req s Hin) as [k [Heq Hk]].
    rewrite Heq. simpl. constructor. intros r. rewrite Hk.
    destruct r as [response|ex]; simpl.
    + constructor. split; assumption.
    + destruct (isInvalidSession ex) eqn:Hex.
      * rewrite (handleAuthFailure_final H ex req s Hex Hfinal). simpl.
        constructor. apply clearAuth_endsCoherent. left. exact Hin.
      * rewrite (handleAuthFailure_other H ex req s Hex). simpl.
        constructor. right. exact Hc.
  - rewrite (doAuthenticatedRequest_loggedOut H req s Hin). simpl.
    constructor. right. exact Hc.
Qed.

Lemma refresh_coherent s :
  coherent s ->
  alone (@endsCoherent H unit)
    (fst (refreshAccessToken s)) (snd (refreshAccessToken s)).
Proof.
  intros Hc. destruct (isLoggedIn s) eqn:Hin.
  - destruct (refreshAccessToken_pending H s Hin) as [k [Heq Hk]].
    rewrite Heq. simpl. constructor. intros r. rewrite Hk.
    destruct r as [response|ex].
    + destruct (ApiAuthInfo_fromJSON H (body response)) as [partialInfo|err].
      * cbv zeta. unfold tryWriteToStorage. simpl.
        destruct (writeToStorage H (merge (authInfo s) partialInfo) (storage s))
          as [st ok].
        assert (Hid : orElse (userId partialInfo) (userId (authInfo s)) <> None).
        { pose proof (coherent_loggedIn s Hc Hin) as Hsome.
          destruct (userId partialInfo); simpl; [discriminate|exact Hsome]. }
        destruct ok; simpl; constructor.
        -- split; [|exact Hin].
           unfold coherent, isLoggedIn. simpl.
           split; [intros _; exact Hid|intros _; exact Hin].
        -- left. split; [reflexivity|exact Hin].
      * simpl. constructor. right. exact Hc.
    + destruct (isInvalidSession ex); simpl; constructor.
      * apply clearAuth_endsCoherent. left. exact Hin.
      * right. exact Hc.
  - rewrite (refreshAccessToken_loggedOut H s Hin). simpl.
    constructor. right. exact Hc.
Qed.

Lemma tryRefresh_coherent (t : Z) s :
  coherent s ->
  alone (@endsCoherent H unit)
    (fst (tryRefreshAccessToken t s)) (snd (tryRefreshAccessToken t s)).
Proof.
  intros Hc. unfold tryRefreshAccessToken, tryRefreshAccessToken_.
  destruct (isLoggedIn s) eqn:Hin; simpl.
  - fold (@refreshAccessToken H).
    destruct (JWT_fromEncoded H (accessToken (authInfo s))) as [jwt|].
    + destruct (issuedAt jwt >=? t)%Z.
      * simpl. constructor. split; assumption.
      * apply refresh_coherent. exact Hc.
    + apply refresh_coherent. exact Hc.
  - constructor. right. exact Hc.
Qed.

Lemma request_coherent req s :
  coherent s ->
  alone (@endsCoherent H Response)
    (fst (doAuthenticatedRequest req s)) (snd (doAuthenticatedRequest req s)).
Proof.
  intros Hc.
  destruct (useRefreshToken req || negb (shouldRefreshOnFailure req)) eqn:Hf.
  - apply final_request_coherent; assumption.
  - apply orb_false_elim in Hf. destruct Hf as [Hu Hr].
    apply negb_false_iff in Hr.
    destruct (isLoggedIn s) eqn:Hin.
    + destruct (doAuthenticatedRequest_pending H req s Hin) as [k [Heq Hk]].
      rewrite Heq. simpl. constructor. intros r. rewrite Hk.
      destruct r as [response|ex]; simpl.
      * constructor. split; assumption.
      * destruct (isInvalidSession ex) eqn:Hex.
        -- rewrite (handleAuthFailure_retry H ex req s Hex Hu Hr).
           unfold andThen.
           apply alone_chain with (Q1 := @endsCoherent H unit).
           ++ apply tryRefresh_coherent. exact Hc.
           ++ intros [[]|e] s0 Hq.
              ** apply final_request_coherent; [exact (proj1 Hq)|].
                 simpl. apply orb_true_r.
              ** simpl. constructor. exact Hq.
        -- rewrite (handleAuthFailure_other H ex req s Hex). simpl.
           constructor. right. exact Hc.
    + rewrite (doAuthenticatedRequest_loggedOut H req s Hin). simpl.
      constructor. right. exact Hc.
Qed.

Lemma clearAuth_result s :
  isLoggedIn s = true \/ coherent s ->
  match snd (clearAuth s) with
  | Ok _ => coherent (fst (clearAuth s)) /\ isLoggedIn (fst (clearAuth s)) = false
  | Err e => e = StitchClientError CouldNotPersistAuthInfo /\
             isLoggedIn (fst (clearAuth s)) = true
  end.
Proof.
  intros Hs. destruct (isLoggedIn s) eqn:Hin.
  - destruct (writeToStorage H (loggedOut (authInfo s)) (storage s))
      as [st ok] eqn:Hw.
    destruct ok.
    + rewrite (clearAuth_persisted H s st Hin Hw). simpl.
      unfold coherent, isLoggedIn. simpl.
      split; [split; [discriminate|congruence]|reflexivity].
    + rewrite (clearAuth_failed H s st Hin Hw). simpl.
      split; [reflexivity|exact Hin].
  - rewrite (clearAuth_loggedOut H s Hin). simpl.
    destruct Hs as [Hs|Hs]; [discriminate|]. split; assumption.
Qed.

Lemma sync_clearAuth_endsLoggedOut s :
  isLoggedIn s = true \/ coherent s ->
  alone (@endsLoggedOut H) (fst (sync (@clearAuth H) s)) (snd (sync (@clearAuth H) s)).
Proof.
  intros Hs. pose proof (clearAuth_result s Hs) as Hr. unfold sync.
  destruct (clearAuth s) as [s' r]. simpl in *. constructor. exact Hr.
Qed.

Lemma logout_coherent s :
  coherent s ->
  alone (@endsLoggedOut H) (fst (logoutInternal s)) (snd (logoutInternal s)).
Proof.
  intros Hc. destruct (isLoggedIn s) eqn:Hin.
  - destruct (logoutInternal_pending H s Hin) as [k [Heq Hk]].
    rewrite Heq. simpl. constructor. intros r. rewrite Hk.
    assert (Htwice : alone (@endsLoggedOut H)
                       (fst (sync (@clearAuth H) (fst (clearAuth s))))
                       (snd (sync (@clearAuth H) (fst (clearAuth s))))).
    { apply sync_clearAuth_endsLoggedOut.
      pose proof (clearAuth_result s (or_introl Hin)) as Hr.
      destruct (snd (clearAuth s)).
      - right. exact (proj1 Hr).
      - left. exact (proj2 Hr). }
    destruct r as [response|ex]; [exact Htwice|].
    destruct (isInvalidSession ex); [exact Htwice|].
    apply sync_clearAuth_endsLoggedOut. left. exact Hin.
  - unfold logoutInternal. rewrite Hin. simpl. constructor.
    split; assumption.
Qed.

(** X1.  From a state in which [isLoggedIn] and [authInfo.userId] agree, an
    authenticated request, a refresh and a logout that run alone end in such
    a state again, with one exception: a call rejected with
    [CouldNotPersistAuthInfo].  A request or refresh that resolves leaves the
    user logged in, a logout that resolves leaves nobody logged in, and a
    logout is rejected with nothing but the persistence error. *)
Theorem session_stays_coherent s (net : list (Result Response))
  (s' : CoreStitchAuth H) (rest : list (Result Response)) :
  coherent s ->
  (forall req r,
     runA (doAuthenticatedRequest req) net s = (s', Settled r, rest) ->
     endsCoherent s' r) /\
  (forall r,
     runA (@refreshAccessToken H) net s = (s', Settled r, rest) ->
     endsCoherent s' r) /\
  (forall r,
     runA (@logoutInternal H) net s = (s', Settled r, rest) ->
     endsLoggedOut s' r).
Proof.
  intros Hc. split; [|split].
  - intros req r Hrun.
    exact (alone_runA _ _ _ _ (request_coherent req s Hc) net s' r rest Hrun).
  - intros r Hrun.
    exact (alone_runA _ _ _ _ (refresh_coherent s Hc) net s' r rest Hrun).
  - intros r Hrun.
    exact (alone_runA _ _ _ _ (logout_coherent s Hc) net s' r rest Hrun).
Qed.

(** ** The commit protocol, continued *)

Lemma getProfile_coherent s :
  coherent s ->
  alone (@endsCoherent H StitchUserProfileImpl)
    (fst (doGetUserProfile s)) (snd (doGetUserProfile s)).
Proof.
  intros Hc. unfold doGetUserProfile, orCatch, andThen.
  apply alone_chain with (Q1 := @endsCoherent H StitchUserProfileImpl).
  - apply alone_chain with (Q1 := @endsCoherent H Response).
    + apply request_coherent. exact Hc.
    + intros [response|e] s0 Hq.
      * destruct (ApiCoreUserProfile_fromJSON H (body response)); simpl;
          constructor; [exact Hq|right; exact (proj1 Hq)].
      * simpl. constructor. exact Hq.
  - intros [profile|e] s0 Hq.
    + simpl. constructor. exact Hq.
    + destruct (isStitchError e) eqn:He; simpl; constructor; [exact Hq|].
      destruct Hq as [[Heq _]|Hq]; [subst e; discriminate|right; exact Hq].
Qed.

Lemma processLogin_steps (credential : StitchCredential) (info : AuthInfo)
  (asLinkRequest : bool) s :
  exists commit rollback,
    processLogin credential info asLinkRequest s =
    orCatch (andThen (@doGetUserProfile H) commit) rollback
      (provisional credential info s) /\
    (forall profile s2,
       commit profile s2 =
       let info' := committed credential info profile s in
       let (s3, ok) := tryWriteToStorage info' s2 in
       if ok then
         let u := makeUser H (userId info') (Some (providerType credential))
                    (Some (providerName credential)) (Some profile) in
         (setCurrentUser (Some u) (setAuthInfo info' s3), Settled (Ok u))
       else (s3, Settled (Err (StitchClientError CouldNotPersistAuthInfo)))) /\
    (forall err s2,
       rollback err s2 =
       if asLinkRequest then
         (setCurrentUser (currentUser s) (setAuthInfo (authInfo s) s2),
          Settled (Err err))
       else
         (fst (clearAuth s2),
          Settled (Err (match snd (clearAuth s2) with
                        | Ok _ => err
                        | Err e => e
                        end)))).
Proof.
  eexists. eexists. split; [reflexivity|]. split.
  - intros profile s2. cbv zeta.
    destruct (tryWriteToStorage _ s2) as [s3 []]; reflexivity.
  - intros err s2. destruct asLinkRequest; [reflexivity|].
    destruct (clearAuth s2) as [s3 [[]|e]]; reflexivity.
Qed.

Lemma processLogin_coherent (credential : StitchCredential) (info : AuthInfo)
  (asLinkRequest : bool) s :
  coherent s ->
  userId info <> None \/ userId (authInfo s) <> None ->
  alone (@endsCoherent H (TStitchUser H))
    (fst (processLogin credential info asLinkRequest s))
    (snd (processLogin credential info asLinkRequest s)).
Proof.
  intros Hc Hid.
  destruct (processLogin_steps credential info asLinkRequest s)
    as [commit [rollback [Heq [Hcommit Hrollback]]]].
  rewrite Heq. unfold orCatch, andThen.
  assert (Hid1 : userId (authInfo (provisional credential info s)) <> None).
  { simpl. destruct (userId info); simpl; [discriminate|].
    destruct Hid as [Hid|Hid]; [congruence|exact Hid]. }
  assert (Hc1 : coherent (provisional credential info s)).
  { unfold coherent. split; [intros _; exact Hid1|intros _; reflexivity]. }
  apply alone_chain with (Q1 := @endsCoherent H (TStitchUser H)).
  - apply alone_chain with (Q1 := @endsCoherent H StitchUserProfileImpl).
    + apply getProfile_coherent. exact Hc1.
    + intros [profile|e] s0 Hq.
      * rewrite Hcommit. cbv zeta. unfold tryWriteToStorage.
        destruct (writeToStorage H (committed credential info profile s)
                    (storage s0)) as [st ok].
        destruct ok; simpl; constructor.
        -- split; [|reflexivity]. unfold coherent, isLoggedIn. simpl.
           split; [|reflexivity]. intros _.
           destruct (userId info); simpl; [discriminate|].
           destruct Hid as [Hid|Hid]; [congruence|].
           destruct (userId (authInfo s)); simpl; [discriminate|congruence].
        -- left. split; [reflexivity|exact (proj2 Hq)].
      * simpl. constructor. exact Hq.
  - intros [u|e] s0 Hq.
    + simpl. constructor. exact Hq.
    + rewrite Hrollback. destruct asLinkRequest; simpl; constructor.
      * right. unfold coherent, isLoggedIn. simpl. exact Hc.
      * apply clearAuth_endsCoherent.
        destruct Hq as [[_ Hin]|Hq]; [left; exact Hin|right; exact Hq].
Qed.

(** X2.  [processLogin] keeps the agreement of [isLoggedIn] and
    [authInfo.userId] when the new auth info or the current one carries a
    user id: run alone from such a state it resolves with a user logged in,
    or it is rejected in a state where the two agree (the rollback of a link
    and the cleared state of a login), or it is rejected with
    [CouldNotPersistAuthInfo]. *)
Theorem login_stays_coherent s (credential : StitchCredential)
  (info : AuthInfo) (asLinkRequest : bool) (net : list (Result Response))
  (s' : CoreStitchAuth H) (r : Result (TStitchUser H))
  (rest : list (Result Response)) :
  coherent s ->
  userId info <> None \/ userId (authInfo s) <> None ->
  runA (processLogin credential info asLinkRequest) net s =
  (s', Settled r, rest) ->
  endsCoherent s' r.
Proof.
  intros Hc Hid Hrun.
  exact (alone_runA _ _ _ _
           (processLogin_coherent credential info asLinkRequest s Hc Hid)
           net s' r rest Hrun).
Qed.

Lemma processLogin_commit s (credential : StitchCredential) (info : AuthInfo)
  (asLinkRequest : bool) (net rest : list (Result Response))
  (s2 : CoreStitchAuth H) (profile : StitchUserProfileImpl) :
  runA (@doGetUserProfile H) net (provisional credential info s) =
  (s2, Settled (Ok profile), rest) ->
  let info' := committed credential info profile s in
  let written := writeToStorage H info' (storage s2) in
  let u := makeUser H (userId info') (Some (providerType credential))
             (Some (providerName credential)) (Some profile) in
  let out := runA (processLogin credential info asLinkRequest) net s in
  (snd written = true ->
   out = ({| authInfo := info'; currentUser := Some u;
             storage := fst written; clock := clock s2;
             log := log s2 ++ [Persisted info'] |},
          Settled (Ok u), rest)) /\
  (snd written = false ->
   let s3 := record (PersistFailed info') (setStorage (fst written) s2) in
   out = (if asLinkRequest
          then setCurrentUser (currentUser s) (setAuthInfo (authInfo s) s3)
          else fst (clearAuth s3),
          Settled (Err (StitchClientError CouldNotPersistAuthInfo)), rest) /\
   (asLinkRequest = true ->
    authInfo (fst (fst out)) = authInfo s /\
    currentUser (fst (fst out)) = currentUser s) /\
   (asLinkRequest = false ->
    (isLoggedIn s2 = true ->
     authInfo (fst (fst out)) = loggedOut (authInfo s2)) /\
    (isLoggedIn s2 = false ->
     authInfo (fst (fst out)) = authInfo s2 /\
     currentUser (fst (fst out)) = None))).
Proof.
  intros Hprofile info' written u out.
  destruct (processLogin_steps credential info asLinkRequest s)
    as [commit [rollback [Heq [Hcommit Hrollback]]]].
  assert (Hthen :
    runA (andThen (@doGetUserProfile H) commit) net
      (provisional credential info s) = runA (commit profile) rest s2).
  { unfold andThen.
    exact (@runA_chain _ _ _ _
             (fun r => match r with
                       | Ok a => commit a
                       | Err e0 => reject e0
                       end) _ _ _ _ _ Hprofile). }
  assert (Hout : forall s3 r3,
    commit profile s2 = (s3, Settled r3) ->
    out = runA (fun s0 => match r3 with
                          | Ok a => resolve a s0
                          | Err e => rollback e s0
                          end) rest s3).
  { intros s3 r3 Hc3. unfold out, runA at 1. rewrite Heq. unfold orCatch.
    unfold runA at 2 in Hthen. rewrite Hc3 in Hthen. simpl in Hthen.
    pose proof (@runA_chain _ _ _ _
                  (fun r => match r with
                            | Ok a => resolve a
                            | Err e => rollback e
                            end) _ _ _ _ _ Hthen) as Hcatch.
    unfold runA at 1 in Hcatch.
    destruct (chain _ _ (provisional credential info s)) as [s1 p].
    rewrite Hcatch. destruct r3; reflexivity. }
  pose proof (Hcommit profile s2) as Hc. cbv zeta in Hc.
  unfold tryWriteToStorage in Hc. fold info' in Hc. fold written in Hc.
  destruct written as [st ok] eqn:Hw. simpl. split.
  - intros Hok. subst ok. rewrite (Hout _ _ Hc). reflexivity.
  - intros Hfail. subst ok. rewrite (Hout _ _ Hc). unfold runA.
    rewrite Hrollback. destruct asLinkRequest; simpl.
    + split; [reflexivity|]. split; [|discriminate].
      intros _. split; reflexivity.
    + set (s3 := record (PersistFailed info') (setStorage st s2)).
      assert (Hrejected :
        match snd (clearAuth s3) with
        | Ok _ => StitchClientError CouldNotPersistAuthInfo
        | Err e => e
        end = StitchClientError CouldNotPersistAuthInfo).
      { pose proof (clearAuth_error H s3) as Herr.
        destruct (clearAuth s3) as [s4 [[]|e]]; simpl; [reflexivity|].
        exact (Herr s4 e eq_refl). }
      rewrite Hrejected. split; [reflexivity|]. split; [discriminate|].
      intros _. split.
      * intros Hin2.
        assert (Hin3 : isLoggedIn s3 = true) by exact Hin2.
        destruct (writeToStorage H (loggedOut (authInfo s3)) (storage s3))
          as [st3 ok3] eqn:Hw3.
        destruct ok3.
        -- rewrite (clearAuth_persisted H s3 st3 Hin3 Hw3). reflexivity.
        -- rewrite (clearAuth_failed H s3 st3 Hin3 Hw3). reflexivity.
      * intros Hout2.
        assert (Hout3 : isLoggedIn s3 = false) by exact Hout2.
        rewrite (clearAuth_loggedOut H s3 Hout3). simpl.
        split; [reflexivity|].
        unfold isLoggedIn in Hout2. destruct (currentUser s2);
          [discriminate|reflexivity].
Qed.

(** X3.  The commit of [processLogin].  When the profile request succeeds,
    the auth info that is written and set is computed from the state at the
    time of the login response (the provisional info and the profile), not
    from the state at the time of the profile's arrival; the user returned
    is the current user.  When the write fails nothing is committed: the
    call is rejected with [CouldNotPersistAuthInfo], in the state that the
    failed write left, in which a link has put back the auth info and the
    user it started with, and on which a login has run [clearAuth] (so the
    auth info is the logged-out form of the one the profile arrived in, or
    that one itself when nobody was logged in any more). *)
Theorem profile_success s (credential : StitchCredential) (info : AuthInfo)
  (asLinkRequest : bool) (net rest : list (Result Response))
  (s2 : CoreStitchAuth H) (profile : StitchUserProfileImpl) :
  runA (@doGetUserProfile H) net (provisional credential info s) =
  (s2, Settled (Ok profile), rest) ->
  let info' := committed credential info profile s in
  let written := writeToStorage H info' (storage s2) in
  let u := makeUser H (userId info') (Some (providerType credential))
             (Some (providerName credential)) (Some profile) in
  let out := runA (processLogin credential info asLinkRequest) net s in
  (snd written = true ->
   out = ({| authInfo := info'; currentUser := Some u;
             storage := fst written; clock := clock s2;
             log := log s2 ++ [Persisted info'] |},
          Settled (Ok u), rest)) /\
  (snd written = false ->
   let s3 := record (PersistFailed info') (setStorage (fst written) s2) in
   out = (if asLinkRequest
          then setCurrentUser (currentUser s) (setAuthInfo (authInfo s) s3)
          else fst (clearAuth s3),
          Settled (Err (StitchClientError CouldNotPersistAuthInfo)), rest) /\
   (asLinkRequest = true ->
    authInfo (fst (fst out)) = authInfo s /\
    currentUser (fst (fst out)) = currentUser s) /\
   (asLinkRequest = false ->
    (isLoggedIn s2 = true ->
     authInfo (fst (fst out)) = loggedOut (authInfo s2)) /\
    (isLoggedIn s2 = false ->
     authInfo (fst (fst out)) = authInfo s2 /\
     currentUser (fst (fst out)) = None))).
Proof.
  exact (processLogin_commit s credential info asLinkRequest net rest s2 profile).
Qed.

(** X4.  [processLogin] does not require a user id.  When neither the new
    auth info nor the current one has a [userId] and the profile request and
    the write succeed, the call resolves with a user, who is the current
    user, while [authInfo.userId] is undefined. *)
Theorem login_without_user_id s (credential : StitchCredential)
  (info : AuthInfo) (asLinkRequest : bool) (net rest : list (Result Response))
  (s2 : CoreStitchAuth H) (profile : StitchUserProfileImpl) :
  userId info = None ->
  userId (authInfo s) = None ->
  runA (@doGetUserProfile H) net (provisional credential info s) =
  (s2, Settled (Ok profile), rest) ->
  snd (writeToStorage H (committed credential info profile s) (storage s2)) =
  true ->
  let out := runA (processLogin credential info asLinkRequest) net s in
  exists u,
    snd (fst out) = Settled (Ok u) /\
    currentUser (fst (fst out)) = Some u /\
    isLoggedIn (fst (fst out)) = true /\
    userId (authInfo (fst (fst out))) = None.
Proof.
  intros Hnew Hold Hprofile Hok out.
  destruct (processLogin_commit s credential info asLinkRequest net rest s2
              profile Hprofile) as [Hcommit _].
  specialize (Hcommit Hok). unfold out. rewrite Hcommit. simpl.
  eexists. split; [reflexivity|]. split; [reflexivity|]. split; [reflexivity|].
  rewrite Hnew, Hold. reflexivity.
Qed.

End Coherence.

(** ** Requests, profile and login *)

Section Requests.

Variable H : Host.

Implicit Types (s : CoreStitchAuth H) (req : StitchAuthRequest) (ex : Error).

Lemma settlesWithin_alone {A : Type} (n : nat)
  (p : Promise (CoreStitchAuth H) A) :
  settlesWithin n p -> forall s, alone (fun _ _ => True) s p.
Proof.
  induction 1 as [n r|n req k _ IH]; intros s.
  - constructor. exact I.
  - constructor. intros r. apply IH.
Qed.

(** X5.  What [prepareAuthRequest] builds.  Without a current user it throws
    [MustAuthenticateFirst].  Otherwise the request keeps its method, path,
    document and start time, its [Authorization] header is the bearer of the
    refresh token or of the access token, as [useRefreshToken] says, whatever
    the header was before, and every other header is kept. *)
Theorem prepareAuthRequest_spec req s :
  (isLoggedIn s = false ->
   prepareAuthRequest req s = Err (StitchClientError MustAuthenticateFirst)) /\
  (isLoggedIn s = true ->
   exists r,
     prepareAuthRequest req s = Ok r /\
     method r = method (request req) /\
     path r = path (request req) /\
     document r = document (request req) /\
     startedAt r = startedAt (request req) /\
     getKey AUTHORIZATION (headers r) =
     Some (getAuthorizationBearer
             (if useRefreshToken req
              then refreshToken (authInfo s)
              else accessToken (authInfo s))) /\
     forall name, name <> AUTHORIZATION ->
       getKey name (headers r) = getKey name (headers (request req))).
Proof.
  unfold prepareAuthRequest. split; intros Hin; rewrite Hin; simpl.
  - reflexivity.
  - eexists. split; [reflexivity|]. simpl. repeat split.
    + apply getKey_setKey_same.
    + intros name Hne. apply getKey_setKey_other. exact Hne.
Qed.

(** Preparing a request again overwrites the token that an earlier
    preparation attached: from a request that already carries the headers of
    [authorized req s0], the request prepared in [s] is the one prepared from
    [req] itself.  (The source attaches the header to the headers object of
    the request, which "is not a copy".) *)
Lemma authorized_again req s0 s :
  authorized
    {| request := withHeaders (headers (authorized req s0)) (request req);
       useRefreshToken := useRefreshToken req;
       shouldRefreshOnFailure := shouldRefreshOnFailure req |} s =
  authorized req s.
Proof.
  unfold authorized, withHeaders. simpl. rewrite setKey_setKey. reflexivity.
Qed.

(** X6.  An answer that is not an invalid session passes through
    [doAuthenticatedRequest]: with a user logged in, a response, or an error
    other than the server's invalid session, settles the call with that
    response or error after the one request, and the state is untouched,
    whatever the flags of the request. *)
Theorem request_passes_through req s (r : Result Response)
  (net : list (Result Response)) :
  isLoggedIn s = true ->
  match r with
  | Ok _ => True
  | Err ex => isInvalidSession ex = false
  end ->
  runA (doAuthenticatedRequest req) (r :: net) s = (s, Settled r, net) /\
  dispatched (snd (doAuthenticatedRequest req s)) (r :: net) s =
  [authorized req s].
Proof.
  intros Hin Hr.
  destruct (doAuthenticatedRequest_pending H req s Hin) as [k [Heq Hk]].
  unfold runA. rewrite Heq. simpl. rewrite Hk.
  destruct r as [response|ex].
  - split; reflexivity.
  - rewrite (handleAuthFailure_other H ex req s Hr). split; reflexivity.
Qed.

(** X7.  A request sent with the refresh token is never retried.  Answered
    with an invalid session it runs [clearAuth] and is rejected, with that
    error or with the persistence error of [clearAuth]; in every case the
    call settles on the first answer. *)
Theorem refresh_token_request_is_final req s (r : Result Response)
  (net : list (Result Response)) :
  isLoggedIn s = true ->
  useRefreshToken req = true ->
  (exists s' res,
     runA (doAuthenticatedRequest req) (r :: net) s = (s', Settled res, net)) /\
  (forall ex, r = Err ex -> isInvalidSession ex = true ->
     runA (doAuthenticatedRequest req) (r :: net) s =
     (fst (clearAuth s),
      Settled (Err (match snd (clearAuth s) with
                    | Ok _ => ex
                    | Err e => e
                    end)), net)).
Proof.
  intros Hin Hu.
  destruct (doAuthenticatedRequest_pending H req s Hin) as [k [Heq Hk]].
  assert (Hfinal : useRefreshToken req || negb (shouldRefreshOnFailure req) = true)
    by (rewrite Hu; reflexivity).
  unfold runA. rewrite Heq. simpl. rewrite Hk. split.
  - destruct r as [response|ex]; [eexists; eexists; reflexivity|].
    destruct (isInvalidSession ex) eqn:Hex.
    + rewrite (handleAuthFailure_final H ex req s Hex Hfinal).
      eexists; eexists; reflexivity.
    + rewrite (handleAuthFailure_other H ex req s Hex).
      eexists; eexists; reflexivity.
  - intros ex Hr Hex. subst r.
    rewrite (handleAuthFailure_final H ex req s Hex Hfinal). reflexivity.
Qed.

Lemma doGetUserProfile_pending s :
  isLoggedIn s = true ->
  exists k,
    doGetUserProfile s = (s, Pending (profileRequest s) k) /\
    method (profileRequest s) = GET /\
    path (profileRequest s) = profileRoute (authRoutes H) /\
    getKey AUTHORIZATION (headers (profileRequest s)) =
    Some (getAuthorizationBearer (accessToken (authInfo s))) /\
    (forall response profile s1,
       ApiCoreUserProfile_fromJSON H (body response) = Ok profile ->
       k (Ok response) s1 = (s1, Settled (Ok profile))) /\
    (forall response e s1,
       ApiCoreUserProfile_fromJSON H (body response) = Err e ->
       k (Ok response) s1 =
       (s1, Settled (Err (if isStitchError e then e
                          else StitchRequestError e DECODING_ERROR)))).
Proof.
  intros Hin. unfold doGetUserProfile, orCatch, andThen, chain.
  destruct (doAuthenticatedRequest_pending H
              (newAuthRequest GET (profileRoute (authRoutes H)) false s)
              s Hin) as [k0 [Heq Hk0]].
  rewrite Heq. simpl. eexists. split; [reflexivity|].
  split; [reflexivity|]. split; [reflexivity|]. split; [reflexivity|]. split.
  - intros response profile s1 Hd. cbv beta. rewrite Hk0. simpl.
    rewrite Hd. reflexivity.
  - intros response e s1 Hd. cbv beta. rewrite Hk0. simpl.
    rewrite Hd. simpl. destruct (isStitchError e); reflexivity.
Qed.

(** X8.  [doGetUserProfile] is rejected with Stitch errors only: an error
    that is not a [StitchError] (a body that does not decode, an exception of
    the transport) is wrapped as a request error with code
    [DECODING_ERROR].  With a user logged in the request is a GET of the
    profile route with the access token, and a body that decodes is the
    profile returned. *)
Theorem profile_request_errors s :
  (forall net s' e rest,
     runA (@doGetUserProfile H) net s = (s', Settled (Err e), rest) ->
     isStitchError e = true) /\
  (isLoggedIn s = true ->
   exists k,
     doGetUserProfile s = (s, Pending (profileRequest s) k) /\
     method (profileRequest s) = GET /\
     path (profileRequest s) = profileRoute (authRoutes H) /\
     getKey AUTHORIZATION (headers (profileRequest s)) =
     Some (getAuthorizationBearer (accessToken (authInfo s))) /\
     (forall response profile s1,
        ApiCoreUserProfile_fromJSON H (body response) = Ok profile ->
        k (Ok response) s1 = (s1, Settled (Ok profile))) /\
     (forall response e s1,
        ApiCoreUserProfile_fromJSON H (body response) = Err e ->
        k (Ok response) s1 =
        (s1, Settled (Err (if isStitchError e then e
                           else StitchRequestError e DECODING_ERROR))))).
Proof.
  split.
  - intros net s' e rest Hrun.
    refine (alone_runA _
              (fun _ r => forall e0, r = Err e0 -> isStitchError e0 = true)
              (@doGetUserProfile H) s _ net s' (Err e) rest Hrun e eq_refl).
    unfold doGetUserProfile, orCatch, andThen.
    apply alone_chain with (Q1 := fun _ _ => True).
    + apply alone_chain with (Q1 := fun _ _ => True).
      * pose proof (settles_doAuthenticatedRequest H
                      (newAuthRequest GET (profileRoute (authRoutes H)) false s)
                      s) as Hs.
        destruct (doAuthenticatedRequest _ s) as [s1 p]. simpl in *.
        exact (settlesWithin_alone 3 p Hs s1).
      * intros [response|e0] s0 _.
        -- destruct (ApiCoreUserProfile_fromJSON H (body response));
             simpl; constructor; exact I.
        -- simpl. constructor. exact I.
    + intros [profile|e0] s0 _.
      * simpl. constructor. intros e1 Heq. discriminate.
      * destruct (isStitchError e0) eqn:He; simpl; constructor;
          intros e1 Heq; inversion Heq; subst; [exact He|reflexivity].
  - exact (doGetUserProfile_pending s).
Qed.

End Requests.

(** ** Construction and login *)

Section Login.

Variable H : Host.

Implicit Types (s : CoreStitchAuth H) (credential : StitchCredential).

(** X9.  The constructor.  When reading the storage throws, construction
    fails with [CouldNotLoadPersistedAuthInfo]; otherwise it succeeds with
    the stored auth info, or the empty one when nothing is stored, a current
    user exactly when that info has a user id (made from the stored id,
    provider and profile), and nothing written or notified. *)
Theorem construct_spec (st : Storage H) (now : Z) :
  (forall e, readFromStorage H st = Err e ->
     construct H st now = Err (StitchClientError CouldNotLoadPersistedAuthInfo)) /\
  (forall stored, readFromStorage H st = Ok stored ->
     exists s,
       construct H st now = Ok s /\
       authInfo s = match stored with Some i => i | None => empty end /\
       storage s = st /\ log s = [] /\
       coherent s /\
       currentUser s =
       match userId (authInfo s) with
       | Some _ =>
           Some (makeUser H (userId (authInfo s))
                   (loggedInProviderType (authInfo s))
                   (loggedInProviderName (authInfo s))
                   (userProfile (authInfo s)))
       | None => None
       end /\
       (stored = None -> isLoggedIn s = false)).
Proof.
  unfold construct. split.
  - intros e Hread. rewrite Hread. reflexivity.
  - intros stored Hread. rewrite Hread. eexists. split; [reflexivity|].
    unfold prepUser, coherent, isLoggedIn. simpl.
    destruct stored as [i|]; simpl.
    + destruct (userId i) eqn:Hid; simpl; rewrite ?Hid;
        repeat split; try reflexivity; try discriminate; try congruence.
    + repeat split; try reflexivity; try discriminate; congruence.
Qed.

(** X10.  [attachAuthOptions] sets the [options] entry of the login document
    to the device information, replacing an [options] entry of the
    credential's material, and keeps every other entry. *)
Theorem attachAuthOptions_spec (authBody : list (string * Json)) :
  getKey OPTIONS (attachAuthOptions H authBody) =
  Some (JObject [(DEVICE, JObject (deviceInfo H))]) /\
  forall name, name <> OPTIONS ->
    getKey name (attachAuthOptions H authBody) = getKey name authBody.
Proof.
  unfold attachAuthOptions. split.
  - apply getKey_setKey_same.
  - intros name Hne. apply getKey_setKey_other. exact Hne.
Qed.

Lemma doLogin_pending credential s :
  exists k,
    doLogin credential false s = (s, Pending (loginRequest credential s) k).
Proof.
  unfold doLogin, andThen, chain, doLoginRequest, doRequest. simpl.
  eexists. reflexivity.
Qed.

(** X11.  A login (not a link) is sent logged in or not: the first thing
    that happens is the dispatch of a POST to the login route of the
    provider, whose document is the material of the credential with the
    device options.  If the transport fails, or the body of the answer is
    missing, empty or undecodable, the call is rejected (the last three as a
    request error with code [DECODING_ERROR]) in the state the answer
    arrived in: nothing is set, written or notified. *)
Theorem login_failure_changes_nothing credential s :
  exists req k,
    doLogin credential false s = (s, Pending req k) /\
    method req = POST /\
    path req =
    getAuthProviderLoginRoute (authRoutes H) (providerName credential) /\
    document req = Some (attachAuthOptions H (material credential)) /\
    (forall e s', k (Err e) s' = (s', Settled (Err e))) /\
    (forall response s',
       noBody response = true ->
       k (Ok response) s' =
       (s', Settled (Err (StitchRequestError (StitchServiceError Unknown)
                            DECODING_ERROR)))) /\
    (forall response err s',
       noBody response = false ->
       ApiAuthInfo_fromJSON H (body response) = Err err ->
       k (Ok response) s' =
       (s', Settled (Err (StitchRequestError err DECODING_ERROR)))).
Proof.
  unfold doLogin, andThen, chain, doLoginRequest, doRequest. simpl.
  eexists. eexists. split; [reflexivity|]. split; [reflexivity|].
  split; [reflexivity|]. split; [reflexivity|]. split; [|split].
  - intros e s'. reflexivity.
  - intros response s' Hno. cbv beta. simpl.
    unfold processLoginResponse. rewrite Hno. reflexivity.
  - intros response err s' Hno Hdec. cbv beta. simpl.
    unfold processLoginResponse. rewrite Hno, Hdec. reflexivity.
Qed.

(** X12.  A credential that carries the server's auth info is not sent to
    the server: [loginWithCredentialInternal] sets the provisional state
    from that info at once, starts no logout, and the request it waits for
    is the profile request, made with the provisional access token. *)
Theorem response_credential_skips_login credential s (c : StitchAuthResponse) :
  authResponse credential = Some c ->
  let s1 := provisional credential (responseAuthInfo c) s in
  exists k,
    loginWithCredentialInternal credential s =
    {| stateAfterCall := s1;
       returned := Pending (profileRequest s1) k;
       dropped := None |} /\
    getKey AUTHORIZATION (headers (profileRequest s1)) =
    Some (getAuthorizationBearer (accessToken (authInfo s1))) /\
    isLoggedIn s1 = true.
Proof.
  intros Hresp s1. unfold loginWithCredentialInternal. rewrite Hresp.
  destruct (processLogin_steps H credential (responseAuthInfo c) (asLink c) s)
    as [commit [rollback [Heq _]]].
  rewrite Heq. fold s1.
  assert (Hin : isLoggedIn s1 = true) by reflexivity.
  destruct (doGetUserProfile_pending H s1 Hin)
    as [k0 [Hprofile [_ [_ [Hauth _]]]]].
  unfold orCatch, andThen, chain. rewrite Hprofile. simpl.
  eexists. split; [reflexivity|]. split; [exact Hauth|exact Hin].
Qed.

Lemma switch_pending credential s (u : TStitchUser H) :
  authResponse credential = None ->
  currentUser s = Some u ->
  reusesExistingSession (providerCapabilities credential) = false \/
  userLoggedInProviderType H u <> Some (providerType credential) ->
  exists kLogout kLogin,
    loginWithCredentialInternal credential s =
    {| stateAfterCall := s;
       returned := Pending (loginRequest credential s) kLogin;
       dropped := Some (Pending (logoutRequest s) kLogout) |}.
Proof.
  intros Hresp Hcu Hswitch. unfold loginWithCredentialInternal.
  rewrite Hresp, Hcu.
  assert (Hin : isLoggedIn s = true)
    by (unfold isLoggedIn; rewrite Hcu; reflexivity).
  assert (Htest :
    reusesExistingSession (providerCapabilities credential) &&
    optString_eqb (Some (providerType credential))
      (userLoggedInProviderType H u) = false).
  { destruct Hswitch as [Hno|Hother].
    - rewrite Hno. reflexivity.
    - apply andb_false_iff. right.
      destruct (optString_eqb (Some (providerType credential))
                  (userLoggedInProviderType H u)) eqn:Heq; [|reflexivity].
      apply optString_eqb_eq in Heq. congruence. }
  rewrite Htest.
  destruct (logoutInternal_pending H s Hin) as [kLogout [Hlogout _]].
  rewrite Hlogout.
  destruct (doLogin_pending credential s) as [kLogin Hlogin].
  rewrite Hlogin. exists kLogout, kLogin. reflexivity.
Qed.

(** X13.  Switching accounts.  With a user logged in, a credential that does
    not reuse the session, or whose provider type is not the one the user
    logged in with, makes [loginWithCredentialInternal] dispatch the session
    delete of the current session and the login request in the same call:
    when the call returns both are pending, the promise of the logout is not
    the one returned, and the state is still the one before the call. *)
Theorem login_switches_session credential s (u : TStitchUser H) :
  authResponse credential = None ->
  currentUser s = Some u ->
  reusesExistingSession (providerCapabilities credential) = false \/
  userLoggedInProviderType H u <> Some (providerType credential) ->
  exists kLogout kLogin,
    loginWithCredentialInternal credential s =
    {| stateAfterCall := s;
       returned := Pending (loginRequest credential s) kLogin;
       dropped := Some (Pending (logoutRequest s) kLogout) |}.
Proof.
  exact (switch_pending credential s u).
Qed.

(** X14.  A [UserApiKeyCredential] never reuses a session: its material is
    the key under ["key"], it is no response credential, and with any user
    logged in, also one who logged in with an API key, logging in with it
    dispatches the session delete and a login request to the route of its
    provider name. *)
Theorem api_key_login_never_reuses (key name : string) s (u : TStitchUser H) :
  currentUser s = Some u ->
  getKey "key" (material (UserApiKeyCredential key name)) = Some (JString key) /\
  exists kLogout kLogin,
    loginWithCredentialInternal (UserApiKeyCredential key name) s =
    {| stateAfterCall := s;
       returned := Pending (loginRequest (UserApiKeyCredential key name) s) kLogin;
       dropped := Some (Pending (logoutRequest s) kLogout) |} /\
    path (loginRequest (UserApiKeyCredential key name) s) =
    getAuthProviderLoginRoute (authRoutes H) name.
Proof.
  intros Hcu. split; [reflexivity|].
  destruct (switch_pending (UserApiKeyCredential key name) s u
              eq_refl Hcu (or_introl eq_refl)) as [kLogout [kLogin Heq]].
  exists kLogout, kLogin. split; [exact Heq|reflexivity].
Qed.

End Login.

(** ** The decoding variant *)

Section DecoderFacts.

Variable H : Host.
Variable T : Type.
Variable decode : option string -> Result T.
Variable wrapDecodingError : Error -> Error.

Lemma dispatched_chainP {A B : Type} (k : Result A -> Async (CoreStitchAuth H) B) :
  (forall r s, exists r', snd (k r s) = Settled r') ->
  forall (net : list (Result Response)) (p : Promise (CoreStitchAuth H) A)
         (s : CoreStitchAuth H),
    dispatched (snd (chainP p k s)) net (fst (chainP p k s)) =
    dispatched p net s.
Proof.
  intros Hk. induction net as [|a net IH]; intros p s.
  - destruct p as [r|req c]; simpl; [|reflexivity].
    destruct (Hk r s) as [r' Hr]. rewrite Hr. reflexivity.
  - destruct p as [r|req c]; simpl.
    + destruct (Hk r s) as [r' Hr]. rewrite Hr. reflexivity.
    + f_equal. destruct (c a s) as [s'' p']. specialize (IH p' s'').
      destruct (chainP p' k s'') as [s1 q]. exact IH.
Qed.

Lemma dispatched_chain {A B : Type} (m : Async (CoreStitchAuth H) A)
  (k : Result A -> Async (CoreStitchAuth H) B) (s : CoreStitchAuth H)
  (net : list (Result Response)) :
  (forall r s0, exists r', snd (k r s0) = Settled r') ->
  dispatched (snd (chain m k s)) net (fst (chain m k s)) =
  dispatched (snd (m s)) net (fst (m s)).
Proof.
  intros Hk. unfold chain. destruct (m s) as [s1 p]. simpl.
  apply dispatched_chainP. exact Hk.
Qed.

(** X15.  The decoding variant adds no request and no change of state to
    [doAuthenticatedRequest].  Without a current user it throws
    [MustAuthenticateFirst] as it is.  Otherwise, run alone on the same
    answers, it dispatches the same requests and ends in the same state; a
    response is decoded, and every rejection, of the request or of the
    decoding, goes through [wrapDecodingError]. *)
Theorem decoder_adds_nothing (stitchReq : StitchAuthRequest)
  (s : CoreStitchAuth H) :
  let plain := doAuthenticatedRequest stitchReq s in
  let decoding :=
    doAuthenticatedRequestWithDecoder decode wrapDecodingError stitchReq s in
  (isLoggedIn s = false ->
   decoding = (s, Settled (Err (StitchClientError MustAuthenticateFirst)))) /\
  (isLoggedIn s = true ->
   (forall net,
      dispatched (snd decoding) net (fst decoding) =
      dispatched (snd plain) net (fst plain)) /\
   (forall net s' r rest,
      runA (doAuthenticatedRequest stitchReq) net s = (s', Settled r, rest) ->
      runA (doAuthenticatedRequestWithDecoder decode wrapDecodingError stitchReq)
        net s =
      (s',
       Settled (match r with
                | Ok response =>
                    match decode (body response) with
                    | Ok obj => Ok obj
                    | Err e => Err (wrapDecodingError e)
                    end
                | Err e => Err (wrapDecodingError e)
                end), rest))).
Proof.
  cbv zeta. unfold doAuthenticatedRequestWithDecoder, prepareAuthRequest.
  split; intros Hin; rewrite Hin; simpl; [reflexivity|].
  split.
  - intros net. unfold orCatch, andThen.
    rewrite dispatched_chain by (intros [a|e] s0; eexists; reflexivity).
    rewrite dispatched_chain; [reflexivity|].
    intros [a|e] s0; [|eexists; reflexivity].
    destruct (decode (body a)); eexists; reflexivity.
  - intros net s' r rest Hrun. unfold orCatch, andThen.
    pose proof (@runA_chain _ _ _ _
                  (fun r0 => match r0 with
                             | Ok a => match decode (body a) with
                                       | Ok obj => resolve obj
                                       | Err e => reject e
                                       end
                             | Err e => reject e
                             end) _ _ _ _ _ Hrun) as Hthen.
    assert (Hthen' :
      runA (chain (doAuthenticatedRequest stitchReq)
              (fun r0 => match r0 with
                         | Ok a => match decode (body a) with
                                   | Ok obj => resolve obj
                                   | Err e => reject e
                                   end
                         | Err e => reject e
                         end)) net s =
      (s', Settled (match r with
                    | Ok response => decode (body response)
                    | Err e => Err e
                    end), rest)).
    { rewrite Hthen. destruct r as [response|e]; [|reflexivity].
      unfold runA. destruct (decode (body response)); reflexivity. }
    pose proof (@runA_chain _ _ _ _
                  (fun r0 => match r0 with
                             | Ok a => resolve a
                             | Err e => reject (wrapDecodingError e)
                             end) _ _ _ _ _ Hthen') as Hcatch.
    unfold runA at 1. unfold runA at 1 in Hcatch.
    unfold doAuthenticatedRequestWithDecoder, prepareAuthRequest.
    rewrite Hin. simpl. unfold orCatch, andThen.
    destruct (chain _ _ s) as [s1 p]. rewrite Hcatch.
    destruct r as [response|e]; [|reflexivity].
    destruct (decode (body response)); reflexivity.
Qed.

End DecoderFacts.

(** ** Event streams *)

Section StreamFacts.

Variable H : Host.
Variable EventStream : Type.

Implicit Types (s : CoreStitchAuth H) (req : StitchAuthRequest) (ex : Error).

Lemma openAuthenticatedEventStream_unfold req (open : bool) :
  openAuthenticatedEventStream (H:=H) EventStream req open =
  openAuthenticatedEventStream_
    (openAuthenticatedEventStream (H:=H) EventStream) req open.
Proof.
  destruct req as [r [] []]; reflexivity.
Qed.

Lemma openAuthenticatedEventStream_pending req (open : bool) s :
  isLoggedIn s = true ->
  exists k,
    openAuthenticatedEventStream EventStream req open s =
    (s, AwaitingStream (streamRequest req s) open req k) /\
    forall r s',
      k r s' = match r with
               | Ok eventStream => (s', StreamSettled (Ok eventStream))
               | Err ex =>
                   handleAuthFailureForEventStream EventStream ex req open s'
               end.
Proof.
  intros Hin. rewrite openAuthenticatedEventStream_unfold.
  unfold openAuthenticatedEventStream_. rewrite Hin. simpl.
  eexists. split; [reflexivity|]. intros [eventStream|ex] s'; reflexivity.
Qed.

Lemma waitsWithin_mono {A : Type} (n m : nat)
  (p : StreamPromise H EventStream A) :
  waitsWithin n m p ->
  forall n' m', n <= n' -> m <= m' -> waitsWithin n' m' p.
Proof.
  induction 1 as [n m r|n m req k _ IH|n m req open reopenWith k _ IH];
    intros n' m' Hn Hm.
  - constructor.
  - destruct n' as [|n']; [lia|]. constructor. intros r s.
    apply IH; lia.
  - destruct m' as [|m']; [lia|]. constructor. intros r s.
    apply IH; lia.
Qed.

Lemma waitsWithin_thenStream {A B : Type} (n n' m : nat)
  (p : Promise (CoreStitchAuth H) A)
  (k : Result A -> CoreStitchAuth H ->
       CoreStitchAuth H * StreamPromise H EventStream B) :
  settlesWithin n p ->
  (forall r s, waitsWithin n' m (snd (k r s))) ->
  forall s, waitsWithin (n + n') m (snd (thenStream p k s)).
Proof.
  intros Hp Hk. induction Hp as [n r|n req c _ IH]; intros s.
  - simpl. apply waitsWithin_mono with (n := n') (m := m);
      [apply Hk|lia|lia].
  - simpl. constructor. intros r s'.
    destruct (c r s') as [s'' p'] eqn:Hc.
    specialize (IH r s' s''). rewrite Hc in IH. exact IH.
Qed.

(** X16.  Opening an event stream.  Without a current user it throws
    [MustAuthenticateFirst].  Otherwise the transport is asked to open the
    request with the token appended to the path as [&stitch_at=], the
    refresh token or the access token as [useRefreshToken] says; the
    headers are those of the request (no [Authorization] header is
    attached), and the callback for reopening holds the request as it was
    given.  The stream that the transport opens is returned, and an error
    other than the server's invalid session is passed on, both without a
    change of state. *)
Theorem stream_opening req (open : bool) s :
  (isLoggedIn s = false ->
   openAuthenticatedEventStream EventStream req open s =
   (s, StreamSettled (Err (StitchClientError MustAuthenticateFirst)))) /\
  (isLoggedIn s = true ->
   exists k,
     openAuthenticatedEventStream EventStream req open s =
     (s, AwaitingStream (streamRequest req s) open req k) /\
     path (streamRequest req s) =
     (path (request req) ++ "&stitch_at=" ++
      match (if useRefreshToken req then refreshToken (authInfo s)
             else accessToken (authInfo s)) with
      | Some t => t
      | None => "undefined"
      end)%string /\
     headers (streamRequest req s) = headers (request req) /\
     (forall eventStream s',
        k (Ok eventStream) s' = (s', StreamSettled (Ok eventStream))) /\
     (forall ex s',
        isInvalidSession ex = false ->
        k (Err ex) s' = (s', StreamSettled (Err ex)))).
Proof.
  split.
  - intros Hout. rewrite openAuthenticatedEventStream_unfold.
    unfold openAuthenticatedEventStream_. rewrite Hout. reflexivity.
  - intros Hin.
    destruct (openAuthenticatedEventStream_pending req open s Hin)
      as [k [Heq Hk]].
    exists k. split; [exact Heq|]. split; [reflexivity|].
    split; [reflexivity|]. split.
    + intros eventStream s'. rewrite Hk. reflexivity.
    + intros ex s' Hex. rewrite Hk.
      unfold handleAuthFailureForEventStream, handleAuthFailureForEventStream_.
      rewrite Hex. reflexivity.
Qed.

(** X17.  The retry of a stream.  When opening a stream that may refresh is
    answered with an invalid session, the freshness check runs and then, if
    it succeeds, the stream is opened again with the same [open] argument,
    with [shouldRefreshOnFailure] false and the token of the state after the
    check.  That second opening is not retried: answered with an invalid
    session it runs [clearAuth] and is rejected, as is an opening with the
    refresh token.  Whatever the answers, one call makes at most one request
    (the refresh) and opens at most two streams. *)
Theorem stream_retry_once req (open : bool) s ex :
  isLoggedIn s = true ->
  useRefreshToken req = false ->
  shouldRefreshOnFailure req = true ->
  isInvalidSession ex = true ->
  exists k,
    openAuthenticatedEventStream EventStream req open s =
    (s, AwaitingStream (streamRequest req s) open req k) /\
    (forall s1,
       k (Err ex) s1 =
       thenStream (snd (tryRefreshAccessToken (startedAt (request req)) s1))
         (fun r => match r with
                   | Ok _ =>
                       openAuthenticatedEventStream EventStream
                         (withShouldRefreshOnFailure false req) open
                   | Err e => fun s2 => (s2, StreamSettled (Err e))
                   end)
         (fst (tryRefreshAccessToken (startedAt (request req)) s1))) /\
    (forall s2 ex2,
       isLoggedIn s2 = true ->
       isInvalidSession ex2 = true ->
       exists k2,
         openAuthenticatedEventStream EventStream
           (withShouldRefreshOnFailure false req) open s2 =
         (s2, AwaitingStream (streamRequest req s2) open
                (withShouldRefreshOnFailure false req) k2) /\
         forall s3,
           k2 (Err ex2) s3 =
           (fst (clearAuth s3),
            StreamSettled (Err (match snd (clearAuth s3) with
                                | Ok _ => ex2
                                | Err e => e
                                end)))) /\
    (forall anyReq anyOpen s0,
       waitsWithin 1 2
         (snd (openAuthenticatedEventStream EventStream anyReq anyOpen s0))).
Proof.
  intros Hin Hu Hr Hex.
  destruct (openAuthenticatedEventStream_pending req open s Hin)
    as [k [Heq Hk]].
  exists k. split; [exact Heq|]. split; [|split].
  - intros s1. rewrite Hk.
    unfold handleAuthFailureForEventStream, handleAuthFailureForEventStream_.
    rewrite Hex, Hu, Hr. simpl.
    destruct (tryRefreshAccessToken (startedAt (request req)) s1) as [s2 p].
    reflexivity.
  - intros s2 ex2 Hin2 Hex2.
    destruct (openAuthenticatedEventStream_pending
                (withShouldRefreshOnFailure false req) open s2 Hin2)
      as [k2 [Heq2 Hk2]].
    exists k2. split; [exact Heq2|].
    intros s3. rewrite Hk2.
    unfold handleAuthFailureForEventStream, handleAuthFailureForEventStream_.
    rewrite Hex2. simpl. rewrite orb_true_r.
    destruct (clearAuth s3) as [s4 [[]|e]]; reflexivity.
  - assert (Hfinal : forall r0 o0 s0,
              useRefreshToken r0 || negb (shouldRefreshOnFailure r0) = true ->
              waitsWithin 0 1
                (snd (openAuthenticatedEventStream EventStream r0 o0 s0))).
    { intros r0 o0 s0 Hf. destruct (isLoggedIn s0) eqn:Hin0.
      - destruct (openAuthenticatedEventStream_pending r0 o0 s0 Hin0)
          as [k0 [Heq0 Hk0]].
        rewrite Heq0. simpl. constructor. intros r s'. rewrite Hk0.
        destruct r as [eventStream|e]; [constructor|].
        unfold handleAuthFailureForEventStream,
          handleAuthFailureForEventStream_.
        destruct (isInvalidSession e); simpl; [|constructor].
        rewrite Hf. destruct (clearAuth s') as [s4 [[]|e']]; constructor.
      - rewrite openAuthenticatedEventStream_unfold.
        unfold openAuthenticatedEventStream_. rewrite Hin0. constructor. }
    intros anyReq anyOpen s0.
    destruct (useRefreshToken anyReq || negb (shouldRefreshOnFailure anyReq))
      eqn:Hf.
    + apply waitsWithin_mono with (n := 0) (m := 1);
        [apply Hfinal; exact Hf|lia|lia].
    + destruct (isLoggedIn s0) eqn:Hin0.
      * destruct (openAuthenticatedEventStream_pending anyReq anyOpen s0 Hin0)
          as [k0 [Heq0 Hk0]].
        rewrite Heq0. simpl. constructor. intros r s'. rewrite Hk0.
        destruct r as [eventStream|e]; [constructor|].
        unfold handleAuthFailureForEventStream,
          handleAuthFailureForEventStream_.
        destruct (isInvalidSession e); simpl; [|constructor].
        rewrite Hf.
        pose proof (settles_tryRefresh H (startedAt (request anyReq)) s')
          as Hcheck.
        destruct (tryRefreshAccessToken (startedAt (request anyReq)) s')
          as [s2 p]. simpl in Hcheck.
        apply (waitsWithin_thenStream 1 0 1 p _ Hcheck).
        intros [[]|e'] s3; [|constructor].
        apply Hfinal. simpl. apply orb_true_r.
      * rewrite openAuthenticatedEventStream_unfold.
        unfold openAuthenticatedEventStream_. rewrite Hin0. constructor.
Qed.

End StreamFacts.

(** ** Refresh and retry, login and notification *)

Section Composition.

Variable H : Host.

Implicit Types (s : CoreStitchAuth H) (req : StitchAuthRequest) (ex : Error).

Lemma tryRefresh_stale s (t : Z) :
  isLoggedIn s = true ->
  ~ issuedSince t s ->
  tryRefreshAccessToken t s = refreshAccessToken s.
Proof.
  intros Hin Hstale. unfold tryRefreshAccessToken, tryRefreshAccessToken_.
  rewrite Hin. simpl.
  destruct (JWT_fromEncoded H (accessToken (authInfo s))) as [jwt|] eqn:Hjwt;
    [|reflexivity].
  destruct (issuedAt jwt >=? t)%Z eqn:Hge; [|reflexivity].
  exfalso. apply Hstale. exists jwt. split; [exact Hjwt|].
  apply Z.geb_le. exact Hge.
Qed.

(** X18.  Logged out while the request was in flight.  When the invalid
    session answer to a request that may refresh arrives in a state without
    a current user, the call is rejected with [LoggedOutDuringRequest]:
    nothing is refreshed, nothing retried, nothing changed. *)
Theorem logged_out_during_request req s ex :
  isLoggedIn s = true ->
  useRefreshToken req = false ->
  shouldRefreshOnFailure req = true ->
  isInvalidSession ex = true ->
  exists k,
    doAuthenticatedRequest req s = (s, Pending (authorized req s) k) /\
    forall s1,
      isLoggedIn s1 = false ->
      k (Err ex) s1 =
      (s1, Settled (Err (StitchClientError LoggedOutDuringRequest))).
Proof.
  intros Hin Hu Hr Hex.
  destruct (doAuthenticatedRequest_pending H req s Hin) as [k [Heq Hk]].
  exists k. split; [exact Heq|].
  intros s1 Hout. rewrite Hk.
  rewrite (handleAuthFailure_retry H ex req s1 Hex Hu Hr).
  unfold andThen, chain, tryRefreshAccessToken, tryRefreshAccessToken_.
  rewrite Hout. reflexivity.
Qed.

(** X19.  Refresh and retry.  A request that may refresh, answered with an
    invalid session while the token is stale, then a refresh answered with
    auth info that decodes and is written: exactly three requests are
    dispatched, the original, the refresh with the refresh token, and the
    original again, prepared in the state that holds the merged auth info,
    so with the access token of the merge.  The third answer, whatever it
    is, settles the call. *)
Theorem retry_uses_refreshed_token req s ex (response : Response)
  (partialInfo : AuthInfo) (net : list (Result Response)) :
  isLoggedIn s = true ->
  useRefreshToken req = false ->
  shouldRefreshOnFailure req = true ->
  isInvalidSession ex = true ->
  ~ issuedSince (startedAt (request req)) s ->
  ApiAuthInfo_fromJSON H (body response) = Ok partialInfo ->
  let merged := merge (authInfo s) partialInfo in
  snd (writeToStorage H merged (storage s)) = true ->
  let s2 := fst (tryWriteToStorage merged (setAuthInfo merged s)) in
  dispatched (snd (doAuthenticatedRequest req s))
    (Err ex :: Ok response :: net) s =
  [authorized req s; refreshRequest s; authorized req s2] /\
  authInfo s2 = merged /\
  getKey AUTHORIZATION (headers (authorized req s2)) =
  Some (getAuthorizationBearer (accessToken merged)) /\
  (forall r3 rest, net = r3 :: rest ->
     exists s3 res,
       runA (doAuthenticatedRequest req) (Err ex :: Ok response :: net) s =
       (s3, Settled res, rest)).
Proof.
  intros Hin Hu Hr Hex Hstale Hdec merged Hok s2.
  destruct (doAuthenticatedRequest_pending H req s Hin) as [k [Heq Hk]].
  pose proof (tryRefresh_stale s (startedAt (request req)) Hin Hstale) as Htry.
  destruct (refreshAccessToken_pending H s Hin) as [kr [Hreq Hkr]].
  assert (Hin2 : isLoggedIn s2 = true).
  { unfold s2, tryWriteToStorage. simpl.
    destruct (writeToStorage H merged (storage s)) as [st ok].
    simpl in Hok. subst ok. exact Hin. }
  destruct (doAuthenticatedRequest_pending H
              (withShouldRefreshOnFailure false req) s2 Hin2)
    as [k2 [Heq2 Hk2]].
  assert (Hstep1 : k (Err ex) s = (s, Pending (refreshRequest s)
            (fun resp s' =>
               let (s'', p') := kr resp s' in
               chainP p'
                 (fun r => match r with
                           | Ok _ => doAuthenticatedRequest
                                       (withShouldRefreshOnFailure false req)
                           | Err e => reject e
                           end) s''))).
  { rewrite Hk. rewrite (handleAuthFailure_retry H ex req s Hex Hu Hr).
    unfold andThen, chain. rewrite Htry, Hreq. reflexivity. }
  assert (Hstep2 : kr (Ok response) s = (s2, Settled (Ok tt))).
  { rewrite Hkr, Hdec. cbv zeta. fold merged. unfold s2, tryWriteToStorage.
    simpl. destruct (writeToStorage H merged (storage s)) as [st ok].
    simpl in Hok. subst ok. reflexivity. }
  split; [|split; [|split]].
  - rewrite Heq. simpl. rewrite Hstep1. simpl. rewrite Hstep2. simpl.
    rewrite Heq2. simpl. destruct net as [|r3 rest]; [reflexivity|].
    rewrite Hk2. destruct r3 as [response3|ex3].
    + reflexivity.
    + destruct (isInvalidSession ex3) eqn:Hex3.
      * rewrite (handleAuthFailure_final H ex3
                   (withShouldRefreshOnFailure false req) s2 Hex3)
          by (simpl; apply orb_true_r).
        reflexivity.
      * rewrite (handleAuthFailure_other H ex3
                   (withShouldRefreshOnFailure false req) s2 Hex3).
        reflexivity.
  - unfold s2, tryWriteToStorage. simpl.
    destruct (writeToStorage H merged (storage s)) as [st ok].
    simpl in Hok. subst ok. reflexivity.
  - unfold authorized. rewrite Hu. simpl. rewrite getKey_setKey_same.
    unfold s2, tryWriteToStorage. simpl.
    destruct (writeToStorage H merged (storage s)) as [st ok].
    simpl in Hok. subst ok. reflexivity.
  - intros r3 rest Hnet. subst net. unfold runA. rewrite Heq. simpl.
    rewrite Hstep1. simpl. rewrite Hstep2. simpl. rewrite Heq2. simpl.
    rewrite Hk2. destruct r3 as [response3|ex3].
    + eexists. eexists. reflexivity.
    + destruct (isInvalidSession ex3) eqn:Hex3.
      * rewrite (handleAuthFailure_final H ex3
                   (withShouldRefreshOnFailure false req) s2 Hex3)
          by (simpl; apply orb_true_r).
        eexists. eexists. reflexivity.
      * rewrite (handleAuthFailure_other H ex3
                   (withShouldRefreshOnFailure false req) s2 Hex3).
        eexists. eexists. reflexivity.
Qed.

End Composition.

Section Notification.

Variable H : Host.

Implicit Types (s : CoreStitchAuth H) (credential : StitchCredential).

Lemma getProfile_alone s :
  alone (fun _ (_ : Result StitchUserProfileImpl) => True)
    (fst (doGetUserProfile s)) (snd (@doGetUserProfile H s)).
Proof.
  unfold doGetUserProfile, orCatch, andThen.
  apply alone_chain with (Q1 := fun _ _ => True).
  - apply alone_chain with (Q1 := fun _ _ => True).
    + pose proof (settles_doAuthenticatedRequest H
                    (newAuthRequest GET (profileRoute (authRoutes H)) false s)
                    s) as Hs.
      destruct (doAuthenticatedRequest _ s) as [s1 p]. simpl in *.
      exact (settlesWithin_alone H 3 p Hs s1).
    + intros [response|e] s0 _; simpl; [|constructor; exact I].
      destruct (ApiCoreUserProfile_fromJSON H (body response));
        simpl; constructor; exact I.
  - intros [profile|e] s0 _; simpl; [constructor; exact I|].
    destruct (isStitchError e); simpl; constructor; exact I.
Qed.

Lemma processLogin_alone_committed credential (info : AuthInfo)
  (asLinkRequest : bool) s :
  alone (fun s' (r : Result (TStitchUser H)) =>
           match r with
           | Ok u => currentUser s' = Some u /\
                     exists l, log s' = (l ++ [Persisted (authInfo s')])%list
           | Err _ => True
           end)
    (fst (processLogin credential info asLinkRequest s))
    (snd (processLogin credential info asLinkRequest s)).
Proof.
  destruct (processLogin_steps H credential info asLinkRequest s)
    as [commit [rollback [Heq [Hcommit Hrollback]]]].
  rewrite Heq. unfold orCatch, andThen.
  match goal with
  | |- alone ?Q _ _ => apply alone_chain with (Q1 := Q)
  end.
  - apply alone_chain with (Q1 := fun _ _ => True).
    + apply getProfile_alone.
    + intros [profile|e] s0 _; [|simpl; constructor; exact I].
      rewrite Hcommit. cbv zeta. unfold tryWriteToStorage.
      destruct (writeToStorage H (committed credential info profile s)
                  (storage s0)) as [st ok].
      destruct ok; simpl; constructor; [|exact I].
      split; [reflexivity|]. simpl. exists (log s0). reflexivity.
  - intros [u|e] s0 Hq.
    + simpl. constructor. exact Hq.
    + rewrite Hrollback. destruct asLinkRequest; simpl; constructor; exact I.
Qed.

(** X20.  What a login or link that resolves has done.  Whenever [doLogin]
    run alone resolves with a user, that user is the current user, and the
    last two things that happened are the write of the auth info now in
    memory and the notification of the owner: what is stored is what is in
    memory, and [onAuthEvent] came after it. *)
Theorem login_resolves_committed credential (asLinkRequest : bool) s
  (net : list (Result Response)) (s' : CoreStitchAuth H) (u : TStitchUser H)
  (rest : list (Result Response)) :
  runA (doLogin credential asLinkRequest) net s = (s', Settled (Ok u), rest) ->
  currentUser s' = Some u /\
  exists l, log s' = (l ++ [Persisted (authInfo s'); AuthEvent])%list.
Proof.
  intros Hrun.
  refine (alone_runA _
            (fun s0 (r : Result (TStitchUser H)) =>
               match r with
               | Ok u0 => currentUser s0 = Some u0 /\
                          exists l, log s0 =
                                    (l ++ [Persisted (authInfo s0); AuthEvent])%list
               | Err _ => True
               end)
            (doLogin credential asLinkRequest) s _ net s' (Ok u) rest Hrun).
  unfold doLogin, andThen.
  apply alone_chain with
    (Q1 := fun s0 (r : Result (TStitchUser H)) =>
             match r with
             | Ok u0 => currentUser s0 = Some u0 /\
                        exists l, log s0 = (l ++ [Persisted (authInfo s0)])%list
             | Err _ => True
             end).
  - apply alone_chain with (Q1 := fun _ _ => True).
    + unfold doLoginRequest. destruct asLinkRequest; simpl.
      * match goal with
        | |- alone _ (fst (doAuthenticatedRequest ?r s)) _ =>
            pose proof (settles_doAuthenticatedRequest H r s) as Hs;
            destruct (doAuthenticatedRequest r s) as [s1 p]
        end.
        simpl in *. exact (settlesWithin_alone H 3 p Hs s1).
      * constructor. intros r. simpl. constructor. exact I.
    + intros [response|e] s0 _; [|simpl; constructor; exact I].
      unfold processLoginResponse.
      destruct (noBody response); [simpl; constructor; exact I|].
      destruct (ApiAuthInfo_fromJSON H (body response)) as [info|err];
        [|simpl; constructor; exact I].
      apply processLogin_alone_committed.
  - intros [u0|e] s0 Hq; simpl; constructor; [|exact I].
    destruct Hq as [Hu [l Hl]]. split; [exact Hu|].
    exists l. simpl. rewrite Hl. rewrite <- app_assoc. reflexivity.
Qed.

End Notification.

(** ** The further properties on the concrete host *)

Lemma loggedIn_coherent (writes : nat) : coherent (loggedIn writes).
Proof.
  unfold coherent. split; intros _; [discriminate|reflexivity].
Qed.

Lemma session_stays_coherent_witness :
  let net := [Err invalidSession; answer "refreshed"; answer "data"] in
  let out := runA (doAuthenticatedRequest (appRequest 150)) net (loggedIn 5) in
  coherent (loggedIn 5) /\
  coherent (fst (fst out)) /\ isLoggedIn (fst (fst out)) = true.
Proof.
  cbv zeta. split; [apply loggedIn_coherent|].
  assert (Hrun : exists s',
            runA (doAuthenticatedRequest (appRequest 150))
              [Err invalidSession; answer "refreshed"; answer "data"]
              (loggedIn 5) =
            (s', Settled (Ok {| statusCode := 200; body := Some "data" |}), []))
    by (eexists; vm_compute; reflexivity).
  destruct Hrun as [s' Hrun]. rewrite Hrun. simpl.
  destruct (session_stays_coherent host (loggedIn 5)
              [Err invalidSession; answer "refreshed"; answer "data"] s' []
              (loggedIn_coherent 5)) as [Hreq _].
  exact (Hreq (appRequest 150) (Ok {| statusCode := 200; body := Some "data" |})
           Hrun).
Defined.

Lemma login_stays_coherent_witness :
  let net := [Err transportError] in
  let out := runA (processLogin apiKey info2 true) net (loggedIn 5) in
  coherent (loggedIn 5) /\
  userId info2 <> None /\
  snd (fst out) = Settled (Err transportError) /\
  coherent (fst (fst out)).
Proof.
  cbv zeta. split; [apply loggedIn_coherent|].
  assert (Hid : userId info2 <> None) by discriminate.
  split; [exact Hid|].
  assert (Hrun : exists s',
            runA (processLogin apiKey info2 true) [Err transportError]
              (loggedIn 5) = (s', Settled (Err transportError), []))
    by (eexists; vm_compute; reflexivity).
  destruct Hrun as [s' Hrun]. rewrite Hrun. simpl. split; [reflexivity|].
  pose proof (login_stays_coherent host (loggedIn 5) apiKey info2 true
                [Err transportError] s' (Err transportError) []
                (loggedIn_coherent 5) (or_introl Hid) Hrun) as Hends.
  destruct Hends as [[Heq _]|Hc]; [discriminate Heq|exact Hc].
Defined.

Lemma profile_success_witness :
  let net := [answer "profile"] in
  let out := runA (processLogin apiKey info2 false) net (loggedOutState 5) in
  runA (@doGetUserProfile host) net (provisional apiKey info2 (loggedOutState 5)) =
  (provisional apiKey info2 (loggedOutState 5),
   Settled (Ok [("name", JString "Alice")]), []) /\
  snd (fst out) = Settled (Ok user2) /\
  currentUser (fst (fst out)) = Some user2 /\
  stored (storage (fst (fst out))) = Some (authInfo (fst (fst out))).
Proof.
  cbv zeta. split; [reflexivity|].
  destruct (profile_success host (loggedOutState 5) apiKey info2 false
              [answer "profile"] []
              (provisional apiKey info2 (loggedOutState 5))
              [("name", JString "Alice")] eq_refl) as [Hcommit _].
  rewrite (Hcommit eq_refl). repeat split.
Defined.

Lemma login_without_user_id_witness :
  let anonymous := partialInfo None None (Some "a2") (Some "r2") in
  let net := [answer "profile"] in
  let out := runA (processLogin apiKey anonymous false) net (loggedOutState 5) in
  userId anonymous = None /\
  userId (authInfo (loggedOutState 5)) = None /\
  isLoggedIn (fst (fst out)) = true /\
  userId (authInfo (fst (fst out))) = None.
Proof.
  cbv zeta. split; [reflexivity|]. split; [reflexivity|].
  destruct (login_without_user_id host (loggedOutState 5) apiKey
              (partialInfo None None (Some "a2") (Some "r2")) false
              [answer "profile"] []
              (provisional apiKey (partialInfo None None (Some "a2") (Some "r2"))
                 (loggedOutState 5))
              [("name", JString "Alice")] eq_refl eq_refl eq_refl eq_refl)
    as [u [_ [_ [Hin Hid]]]].
  split; [exact Hin|exact Hid].
Defined.

Lemma request_passes_through_witness :
  isLoggedIn (loggedIn 5) = true /\
  isInvalidSession transportError = false /\
  runA (doAuthenticatedRequest (appRequest 150)) [Err transportError]
    (loggedIn 5) =
  (loggedIn 5, Settled (Err transportError), []).
Proof.
  split; [reflexivity|]. split; [reflexivity|].
  exact (proj1 (request_passes_through host (appRequest 150) (loggedIn 5)
                  (Err transportError) [] eq_refl eq_refl)).
Defined.

Lemma refresh_token_request_is_final_witness :
  let req := newAuthRequest POST "/auth/session" true (loggedIn 5) in
  isLoggedIn (loggedIn 5) = true /\
  useRefreshToken req = true /\
  exists s' res,
    runA (doAuthenticatedRequest req) [Err invalidSession; answer "x"]
      (loggedIn 5) = (s', Settled res, [answer "x"]).
Proof.
  cbv zeta. split; [reflexivity|]. split; [reflexivity|].
  exact (proj1 (refresh_token_request_is_final host
                  (newAuthRequest POST "/auth/session" true (loggedIn 5))
                  (loggedIn 5) (Err invalidSession) [answer "x"]
                  eq_refl eq_refl)).
Defined.

Lemma response_credential_skips_login_witness :
  let credential :=
    {| providerName := "custom-token"; providerType := "custom-token";
       material := [];
       providerCapabilities := {| reusesExistingSession := false |};
       authResponse := Some {| responseAuthInfo := info2; asLink := false |} |} in
  authResponse credential <> None /\
  exists k,
    returned (loginWithCredentialInternal credential (loggedOutState 5)) =
    Pending {| method := GET; path := "/auth/profile";
               headers := [("Authorization", "Bearer a2")];
               document := None; startedAt := 200 |} k.
Proof.
  cbv zeta. split; [discriminate|].
  destruct (response_credential_skips_login host
              {| providerName := "custom-token"; providerType := "custom-token";
                 material := [];
                 providerCapabilities := {| reusesExistingSession := false |};
                 authResponse :=
                   Some {| responseAuthInfo := info2; asLink := false |} |}
              (loggedOutState 5)
              {| responseAuthInfo := info2; asLink := false |} eq_refl)
    as [k [Heq _]].
  exists k. rewrite Heq. reflexivity.
Defined.

Lemma login_switches_session_witness :
  currentUser (loggedIn 5) = Some user1 /\
  exists kLogout kLogin,
    loginWithCredentialInternal apiKey (loggedIn 5) =
    {| stateAfterCall := loggedIn 5;
       returned := Pending (loginRequest apiKey (loggedIn 5)) kLogin;
       dropped := Some (Pending (logoutRequest (loggedIn 5)) kLogout) |}.
Proof.
  split; [reflexivity|].
  exact (login_switches_session host apiKey (loggedIn 5) user1
           eq_refl eq_refl (or_introl eq_refl)).
Defined.

Lemma api_key_login_never_reuses_witness :
  let apiUser :=
    {| userIdOf := Some "u3"; providerTypeOf := Some "api-key";
       providerNameOf := Some "api-key"; profileOf := None |} in
  let s := @Build_CoreStitchAuth host info1 (Some apiUser)
             {| stored := Some info1; writesLeft := 5 |} 200 [] in
  currentUser s = Some apiUser /\
  dropped (loginWithCredentialInternal (UserApiKeyCredential "k" "api-key") s)
  <> None.
Proof.
  cbv zeta. split; [reflexivity|].
  destruct (api_key_login_never_reuses host "k" "api-key"
              (@Build_CoreStitchAuth host info1
                 (Some {| userIdOf := Some "u3"; providerTypeOf := Some "api-key";
                          providerNameOf := Some "api-key"; profileOf := None |})
                 {| stored := Some info1; writesLeft := 5 |} 200 [])
              {| userIdOf := Some "u3"; providerTypeOf := Some "api-key";
                 providerNameOf := Some "api-key"; profileOf := None |}
              eq_refl) as [_ [kLogout [kLogin [Heq _]]]].
  rewrite Heq. discriminate.
Defined.

Lemma stream_retry_once_witness :
  isLoggedIn (loggedIn 5) = true /\
  useRefreshToken (appRequest 50) = false /\
  shouldRefreshOnFailure (appRequest 50) = true /\
  isInvalidSession invalidSession = true /\
  exists k,
    openAuthenticatedEventStream string (appRequest 50) true (loggedIn 5) =
    (loggedIn 5,
     AwaitingStream {| method := GET; path := "/app/data&stitch_at=a1";
                       headers := []; document := None; startedAt := 50 |}
       true (appRequest 50) k).
Proof.
  repeat split; try reflexivity.
  destruct (stream_retry_once host string (appRequest 50) true (loggedIn 5)
              invalidSession eq_refl eq_refl eq_refl eq_refl) as [k [Heq _]].
  exists k. exact Heq.
Defined.

Lemma logged_out_during_request_witness :
  isLoggedIn (loggedIn 5) = true /\
  isLoggedIn (loggedOutState 5) = false /\
  exists k,
    doAuthenticatedRequest (appRequest 150) (loggedIn 5) =
    (loggedIn 5, Pending (authorized (appRequest 150) (loggedIn 5)) k) /\
    k (Err invalidSession) (loggedOutState 5) =
    (loggedOutState 5, Settled (Err (StitchClientError LoggedOutDuringRequest))).
Proof.
  split; [reflexivity|]. split; [reflexivity|].
  destruct (logged_out_during_request host (appRequest 150) (loggedIn 5)
              invalidSession eq_refl eq_refl eq_refl eq_refl) as [k [Heq Hk]].
  exists k. split; [exact Heq|]. apply Hk. reflexivity.
Defined.

Lemma retry_uses_refreshed_token_witness :
  let net := [Err invalidSession; answer "refreshed"; answer "data"] in
  ~ issuedSince 150 (loggedIn 5) /\
  map (fun r => getKey AUTHORIZATION (headers r))
    (dispatched (snd (doAuthenticatedRequest (appRequest 150) (loggedIn 5)))
       net (loggedIn 5)) =
  [Some "Bearer a1"; Some "Bearer r1"; Some "Bearer a2"].
Proof.
  cbv zeta.
  assert (Hstale : ~ issuedSince 150 (loggedIn 5)).
  { intros [jwt [Hjwt Hle]]. simpl in Hjwt. inversion Hjwt; subst jwt.
    simpl in Hle. lia. }
  split; [exact Hstale|].
  destruct (retry_uses_refreshed_token host (appRequest 150) (loggedIn 5)
              invalidSession {| statusCode := 200; body := Some "refreshed" |}
              (partialInfo None None (Some "a2") None) [answer "data"]
              eq_refl eq_refl eq_refl eq_refl Hstale eq_refl eq_refl)
    as [Hdisp _].
  unfold answer in *. rewrite Hdisp. reflexivity.
Defined.

Lemma login_resolves_committed_witness :
  let net := [answer "login-u2"; answer "profile"] in
  let out := runA (doLogin apiKey false) net (loggedOutState 5) in
  snd (fst out) = Settled (Ok user2) /\
  currentUser (fst (fst out)) = Some user2 /\
  exists l, log (fst (fst out)) =
            (l ++ [Persisted (authInfo (fst (fst out))); AuthEvent])%list.
Proof.
  cbv zeta.
  assert (Hrun : exists s',
            runA (doLogin apiKey false) [answer "login-u2"; answer "profile"]
              (loggedOutState 5) = (s', Settled (Ok user2), []))
    by (eexists; vm_compute; reflexivity).
  destruct Hrun as [s' Hrun]. rewrite Hrun. simpl. split; [reflexivity|].
  exact (login_resolves_committed host apiKey false (loggedOutState 5)
           [answer "login-u2"; answer "profile"] s' user2 [] Hrun).
Defined.
